(** * Retention / cleanup policy of the Playwright automation framework

    A shallow embedding of [utilities/cleanup_utils.py] (class
    [CleanupUtils]) together with the constants it reads from
    [config/config.py], and the properties of the retention policy.

    The file system is an explicit store threaded through a small
    state-and-exception monad: the three roots of [DIRECTORY_PATHS],
    each missing, not a directory, or a directory with its entries in
    listing order. Names are matched as on a POSIX system (case
    matters). The logger is a sink that records (level, message) pairs;
    the file it writes to is not part of the modelled directories. *)

From Stdlib Require Import ZArith Lia Ascii String.
From stdpp Require Import base decidable list sorting strings.

Local Open Scope Z_scope.

(* ================================================================== *)
(** * Python built-ins used by the module *)
(* ================================================================== *)

Module Py.
Local Open Scope string_scope.
Local Open Scope Z_scope.

(** [x or default] on an [Optional[int]]: [None] and [0] are both falsy. *)
Definition or_default (x : option Z) (default : Z) : Z :=
  match x with
  | None => default
  | Some n => if n =? 0 then default else n
  end.

(** [l[k:]] for an integer [k] of either sign. *)
Definition slice_from {A} (k : Z) (l : list A) : list A :=
  if 0 <=? k then drop (Z.to_nat k) l
  else drop (Z.to_nat (Z.of_nat (length l) + k)) l.

(** [l[:k]] for an integer [k] of either sign. *)
Definition slice_to {A} (k : Z) (l : list A) : list A :=
  if 0 <=? k then take (Z.to_nat k) l
  else take (Z.to_nat (Z.of_nat (length l) + k)) l.

(** [len(l)] *)
Definition len {A} (l : list A) : Z := Z.of_nat (length l).

(** [needle in hay] on strings. *)
Fixpoint contains (needle hay : string) : bool :=
  if String.prefix needle hay then true
  else match hay with
       | EmptyString => false
       | String _ rest => contains needle rest
       end.

Fixpoint has_char (c : ascii) (s : string) : bool :=
  match s with
  | EmptyString => false
  | String a rest => if Ascii.eqb a c then true else has_char c rest
  end.

(** [s.split(c, 1)[1]]: the text after the first [c]; [None] stands for
    the [IndexError] raised when [c] does not occur. *)
Fixpoint split1_second (c : ascii) (s : string) : option string :=
  match s with
  | EmptyString => None
  | String a rest => if Ascii.eqb a c then Some rest else split1_second c rest
  end.

(** [s.rsplit(c, 1)[0]]: the text before the last [c], all of [s] when
    [c] does not occur. *)
Fixpoint rsplit1_first (c : ascii) (s : string) : string :=
  match s with
  | EmptyString => EmptyString
  | String a rest =>
      if has_char c rest then String a (rsplit1_first c rest)
      else if Ascii.eqb a c then EmptyString
      else s
  end.

(** [fnmatch.fnmatchcase(name, pat)] for patterns made of literal
    characters, [*] and [?] (the patterns of this module contain no
    bracket expression). *)
Fixpoint fnmatch (pat name : string) : bool :=
  match pat with
  | EmptyString => match name with EmptyString => true | _ => false end
  | String c pat' =>
      if Ascii.eqb c "*" then
        (fix star (s : string) : bool :=
           if fnmatch pat' s then true
           else match s with
                | EmptyString => false
                | String _ s' => star s'
                end) name
      else match name with
           | EmptyString => false
           | String a name' =>
               (Ascii.eqb c "?" || Ascii.eqb a c) && fnmatch pat' name'
           end
  end.

(** [glob._ishidden] *)
Definition ishidden (name : string) : bool := String.prefix "." name.

(** ** The stable descending sort of [list.sort(key=..., reverse=True)]

    The list is decorated with its keys; elements with equal keys keep
    their original relative order. *)
Section Sort.
Context {A : Type}.

Fixpoint insert_desc (x : Z * A) (l : list (Z * A)) : list (Z * A) :=
  match l with
  | [] => [x]
  | y :: l' => if x.1 <? y.1 then y :: insert_desc x l' else x :: l
  end.

Definition sort_desc (l : list (Z * A)) : list (Z * A) :=
  foldr insert_desc [] l.
End Sort.

(** ** [datetime.fromtimestamp(t).strftime("%Y-%m-%d_%H-%M-%S")]

    Time stamps are counted in microseconds since the epoch, the
    resolution of [datetime]. [utc_offset] is the local-time rule of the
    process: the number of seconds local time is ahead of UTC at a given
    instant. *)
Definition digit (d : Z) : string :=
  String (ascii_of_nat (48 + Z.to_nat d)) EmptyString.

Definition pad2 (n : Z) : string := digit (n / 10 mod 10) +:+ digit (n mod 10).

Definition pad4 (n : Z) : string := pad2 (n / 100) +:+ pad2 (n mod 100).

(** Proleptic Gregorian date of a day number counted from 1970-01-01. *)
Definition civil_from_days (days : Z) : Z * Z * Z :=
  let z := days + 719468 in
  let era := z / 146097 in
  let doe := z - era * 146097 in
  let yoe := (doe - doe / 1460 + doe / 36524 - doe / 146096) / 365 in
  let doy := doe - (365 * yoe + yoe / 4 - yoe / 100) in
  let mp := (5 * doy + 2) / 153 in
  let d := doy - (153 * mp + 2) / 5 + 1 in
  let m := if mp <? 10 then mp + 3 else mp - 9 in
  let y := yoe + era * 400 + (if m <=? 2 then 1 else 0) in
  (y, m, d).

Definition strftime_stamp (utc_offset : Z -> Z) (micros : Z) : string :=
  let secs := micros / 1000000 in
  let loc := secs + utc_offset secs in
  let '(y, m, d) := civil_from_days (loc / 86400) in
  let sod := loc mod 86400 in
  pad4 y +:+ "-" +:+ pad2 m +:+ "-" +:+ pad2 d +:+ "_"
  +:+ pad2 (sod / 3600) +:+ "-" +:+ pad2 (sod / 60 mod 60) +:+ "-" +:+ pad2 (sod mod 60).

End Py.

(* ================================================================== *)
(** * The file system and the logger *)
(* ================================================================== *)

(** What [stat] finds behind a directory entry. A [BrokenLink] is a
    symbolic link whose target is gone: the directory lists it, [stat]
    on it fails. *)
Inductive kind := RegularFile | Directory | BrokenLink.

(** One directory entry. [mtime] and [ctime] are what
    [os.path.getmtime] and [os.path.getctime] return, in microseconds.
    [removable] tells whether deleting the entry succeeds (permissions,
    locks, a link standing for a directory, ...). The contents of a
    folder are not modelled: [shutil.rmtree] removes the entry or
    fails. *)
Record entry := Entry {
  name : string;
  ekind : kind;
  mtime : Z;
  ctime : Z;
  removable : bool;
}.

(** What is found at a root path: nothing, something that is not a
    directory, or a directory with its entries in listing order. *)
Inductive node := Absent | NotDir | Dir (es : list entry).

(** The keys of [DIRECTORY_PATHS]. A path below a root is written as
    the pair of the root and the entry name; [os.path.join] builds it
    and [os.path.basename] gives the name back. *)
Inductive root := Reports | Logs | Screenshots.

Record filesystem := FS {
  reports_node : node;
  logs_node : node;
  screenshots_node : node;
}.

Definition node_of (r : root) (f : filesystem) : node :=
  match r with
  | Reports => reports_node f
  | Logs => logs_node f
  | Screenshots => screenshots_node f
  end.

Definition set_node (r : root) (n : node) (f : filesystem) : filesystem :=
  match r with
  | Reports => FS n (logs_node f) (screenshots_node f)
  | Logs => FS (reports_node f) n (screenshots_node f)
  | Screenshots => FS (reports_node f) (logs_node f) n
  end.

Definition entries (r : root) (f : filesystem) : list entry :=
  match node_of r f with Dir es => es | _ => [] end.

Definition named (p : string) (e : entry) : bool := String.eqb (name e) p.

Definition lookup_entry (r : root) (p : string) (f : filesystem) : option entry :=
  List.find (named p) (entries r f).

Inductive exn :=
| FileNotFoundError | NotADirectoryError | IsADirectoryError | PermissionError.

Inductive level := INFO | ERROR.

(** The f-strings handed to the logger, by their text and arguments. *)
Inductive message :=
| DirectoryDoesNotExist (r : root)
| CleaningUpKeeping (r : root) (keep : Z)
| CleaningUpToMatch (num_reports : Z)
| DeletedOld (r : root) (p : string)
| FailedToDelete (r : root) (p : string) (e : exn)
| UnknownStrategy (strategy : string).

Record world := World {
  fs : filesystem;
  log : list (level * message);
}.

(* ================================================================== *)
(** * The monad of effects: state and exceptions *)
(* ================================================================== *)

Definition M (A : Type) : Type := world -> (exn + A) * world.

Definition ret {A} (a : A) : M A := fun w => (inr a, w).

Definition raise {A} (e : exn) : M A := fun w => (inl e, w).

Definition bind {A B} (m : M A) (k : A -> M B) : M B :=
  fun w => match m w with
           | (inr a, w') => k a w'
           | (inl e, w') => (inl e, w')
           end.

Notation "'let*' x ':=' m 'in' k" := (bind m (fun x => k))
  (at level 10, x name, m at level 100, k at level 200, only parsing).
Notation "m ;;; k" := (bind m (fun _ => k))
  (at level 100, k at level 200, right associativity, only parsing).

(** [try: body except Exception as e: handler(e)] *)
Definition try_except {A} (body : M A) (handler : exn -> M A) : M A :=
  fun w => match body w with
           | (inl e, w') => handler e w'
           | r => r
           end.

(** [for x in l: body(x)] *)
Fixpoint for_each {A} (l : list A) (body : A -> M unit) : M unit :=
  match l with
  | [] => ret tt
  | x :: l' => body x ;;; for_each l' body
  end.

Fixpoint mapM {A B} (f : A -> M B) (l : list A) : M (list B) :=
  match l with
  | [] => ret []
  | x :: l' => let* y := f x in let* ys := mapM f l' in ret (y :: ys)
  end.

(** [[x for x in l if test(x)]] *)
Fixpoint filterM {A} (test : A -> M bool) (l : list A) : M (list A) :=
  match l with
  | [] => ret []
  | x :: l' =>
      let* b := test x in
      let* xs := filterM test l' in
      ret (if b then x :: xs else xs)
  end.

(** [l.sort(key=key, reverse=True)]: all keys are computed first, so an
    exception of [key] leaves before anything is reordered. *)
Definition sort_by_key_reverse (key : string -> M Z) (l : list string)
  : M (list string) :=
  let* decorated := mapM (fun p => let* k := key p in ret (k, p)) l in
  ret (Py.sort_desc decorated).*2.

Definition get_fs : M filesystem := fun w => (inr (fs w), w).

Definition put_fs (f : filesystem) : M unit :=
  fun w => (inr tt, World f (log w)).

Definition logger_info (m : message) : M unit :=
  fun w => (inr tt, World (fs w) (log w ++ [(INFO, m)])).

Definition logger_error (m : message) : M unit :=
  fun w => (inr tt, World (fs w) (log w ++ [(ERROR, m)])).

(* ================================================================== *)
(** * The [os], [glob] and [shutil] calls *)
(* ================================================================== *)

Definition os_path_exists (r : root) : M bool :=
  let* f := get_fs in
  ret (match node_of r f with Absent => false | _ => true end).

(** [glob.glob(os.path.join(root, pat))]: the names of the directory in
    listing order, hidden names dropped unless the pattern is hidden
    itself, then filtered by the pattern. No [stat] is done, and a root
    that is not a directory gives the empty list. *)
Definition glob_match (pat : string) (n : string) : bool :=
  (Py.ishidden pat || negb (Py.ishidden n)) && Py.fnmatch pat n.

Definition glob_glob (r : root) (pat : string) : M (list string) :=
  let* f := get_fs in
  ret (filter (fun n => glob_match pat n) (name <$> entries r f)).

Definition os_stat (r : root) (p : string) : M entry :=
  let* f := get_fs in
  match lookup_entry r p f with
  | None => raise FileNotFoundError
  | Some e => match ekind e with
              | BrokenLink => raise FileNotFoundError
              | _ => ret e
              end
  end.

Definition os_path_getmtime (r : root) (p : string) : M Z :=
  let* e := os_stat r p in ret (mtime e).

Definition os_path_getctime (r : root) (p : string) : M Z :=
  let* e := os_stat r p in ret (ctime e).

(** [os.path.isdir] never raises. *)
Definition os_path_isdir (r : root) (p : string) : M bool :=
  let* f := get_fs in
  ret (match lookup_entry r p f with
       | Some e => match ekind e with Directory => true | _ => false end
       | None => false
       end).

Definition os_listdir (r : root) : M (list string) :=
  let* f := get_fs in
  match node_of r f with
  | Absent => raise FileNotFoundError
  | NotDir => raise NotADirectoryError
  | Dir es => ret (name <$> es)
  end.

Definition unlink (r : root) (p : string) (f : filesystem) : filesystem :=
  set_node r (Dir (filter (fun e => negb (named p e)) (entries r f))) f.

Definition os_remove (r : root) (p : string) : M unit :=
  let* f := get_fs in
  match lookup_entry r p f with
  | None => raise FileNotFoundError
  | Some e =>
      match ekind e with
      | Directory => raise IsADirectoryError
      | _ => if removable e then put_fs (unlink r p f)
             else raise PermissionError
      end
  end.

Definition shutil_rmtree (r : root) (p : string) : M unit :=
  let* f := get_fs in
  match lookup_entry r p f with
  | None => raise FileNotFoundError
  | Some e =>
      match ekind e with
      | Directory => if removable e then put_fs (unlink r p f)
                     else raise PermissionError
      | _ => raise NotADirectoryError
      end
  end.

(* ================================================================== *)
(** * [config/config.py] *)
(* ================================================================== *)

Module REPORTING_SETTINGS.
Definition max_reports_to_keep : Z := 5.
Definition report_prefix : string := "playwright_report_".
End REPORTING_SETTINGS.

Module SCREENSHOT_SETTINGS.
Definition max_screenshots_to_keep : Z := 5.
End SCREENSHOT_SETTINGS.

(* ================================================================== *)
(** * [utilities/cleanup_utils.py]: class [CleanupUtils] *)
(* ================================================================== *)

Definition cleanup_reports (max_reports : option Z) : M unit :=
  let max_reports_to_keep :=
    Py.or_default max_reports REPORTING_SETTINGS.max_reports_to_keep in
  let reports_dir := Reports in
  let* ex := os_path_exists reports_dir in
  if negb ex then logger_info (DirectoryDoesNotExist reports_dir)
  else
    logger_info (CleaningUpKeeping reports_dir max_reports_to_keep) ;;;
    let* report_files := glob_glob reports_dir "*.html" in
    let* report_files := sort_by_key_reverse (os_path_getmtime reports_dir) report_files in
    if Py.len report_files >? max_reports_to_keep then
      for_each (Py.slice_from max_reports_to_keep report_files) (fun old_report =>
        try_except
          (os_remove reports_dir old_report ;;;
           logger_info (DeletedOld reports_dir old_report))
          (fun e => logger_error (FailedToDelete reports_dir old_report e)))
    else ret tt.

Definition cleanup_logs (max_logs : option Z) : M unit :=
  let max_logs_to_keep :=
    Py.or_default max_logs REPORTING_SETTINGS.max_reports_to_keep in
  let logs_dir := Logs in
  let* ex := os_path_exists logs_dir in
  if negb ex then logger_info (DirectoryDoesNotExist logs_dir)
  else
    logger_info (CleaningUpKeeping logs_dir max_logs_to_keep) ;;;
    let* log_files := glob_glob logs_dir "test_execution_*.log" in
    let* log_files := sort_by_key_reverse (os_path_getmtime logs_dir) log_files in
    if Py.len log_files >? max_logs_to_keep then
      for_each (Py.slice_from max_logs_to_keep log_files) (fun old_log =>
        try_except
          (os_remove logs_dir old_log ;;;
           logger_info (DeletedOld logs_dir old_log))
          (fun e => logger_error (FailedToDelete logs_dir old_log e)))
    else ret tt.

(** The time stamp token of one report: the text between the first
    underscore and the last dot of the file name, and the formatted
    modification time when the name has no underscore ([IndexError]). *)
Definition report_timestamp (utc_offset : Z -> Z) (report : string) : M string :=
  let filename := report in
  match Py.split1_second "_" filename with
  | Some rest => ret (Py.rsplit1_first "." rest)
  | None =>
      let* mod_time := os_path_getmtime Reports report in
      ret (Py.strftime_stamp utc_offset mod_time)
  end.

(** The inner loop over [report_timestamps] with its [break]. *)
Definition match_found (report_timestamps : list string) (folder : string) : bool :=
  existsb (fun timestamp => Py.contains timestamp folder) report_timestamps.

Definition _cleanup_screenshots_match_reports
    (utc_offset : Z -> Z) (reports_to_match : option Z) : M unit :=
  let num_reports :=
    Py.or_default reports_to_match REPORTING_SETTINGS.max_reports_to_keep in
  let reports_dir := Reports in
  let screenshots_dir := Screenshots in
  logger_info (CleaningUpToMatch num_reports) ;;;
  let* report_files := glob_glob reports_dir "*.html" in
  let* report_files := sort_by_key_reverse (os_path_getmtime reports_dir) report_files in
  let* report_timestamps :=
    mapM (report_timestamp utc_offset) (Py.slice_to num_reports report_files) in
  let* names := os_listdir screenshots_dir in
  let* screenshot_folders := filterM (os_path_isdir screenshots_dir) names in
  for_each screenshot_folders (fun folder =>
    if negb (match_found report_timestamps folder) then
      let folder_path := folder in
      try_except
        (shutil_rmtree screenshots_dir folder_path ;;;
         logger_info (DeletedOld screenshots_dir folder_path))
        (fun e => logger_error (FailedToDelete screenshots_dir folder_path e))
    else ret tt).

Definition _cleanup_screenshots_last_execution (max_screenshots : option Z) : M unit :=
  let max_to_keep :=
    Py.or_default max_screenshots SCREENSHOT_SETTINGS.max_screenshots_to_keep in
  let screenshots_dir := Screenshots in
  logger_info (CleaningUpKeeping screenshots_dir max_to_keep) ;;;
  let* names := os_listdir screenshots_dir in
  let* screenshot_folders := filterM (os_path_isdir screenshots_dir) names in
  let* screenshot_folders :=
    sort_by_key_reverse (os_path_getctime screenshots_dir) screenshot_folders in
  if Py.len screenshot_folders >? max_to_keep then
    for_each (Py.slice_from max_to_keep screenshot_folders) (fun old_folder =>
      try_except
        (shutil_rmtree screenshots_dir old_folder ;;;
         logger_info (DeletedOld screenshots_dir old_folder))
        (fun e => logger_error (FailedToDelete screenshots_dir old_folder e)))
  else ret tt.

Definition cleanup_screenshots (utc_offset : Z -> Z) (strategy : string)
    (max_screenshots reports_to_match : option Z) : M unit :=
  let screenshots_dir := Screenshots in
  let* ex := os_path_exists screenshots_dir in
  if negb ex then logger_info (DirectoryDoesNotExist screenshots_dir)
  else if String.eqb strategy "match_reports" then
    _cleanup_screenshots_match_reports utc_offset reports_to_match
  else if String.eqb strategy "last_execution" then
    _cleanup_screenshots_last_execution max_screenshots
  else logger_error (UnknownStrategy strategy).

(* ================================================================== *)
(** * Vocabulary of the properties *)
(* ================================================================== *)

(** The names a directory lists, in listing order. *)
Definition listing (r : root) (f : filesystem) : list string :=
  name <$> entries r f.

Definition is_directory (e : entry) : bool :=
  match ekind e with Directory => true | _ => false end.

Definition is_broken (e : entry) : bool :=
  match ekind e with BrokenLink => true | _ => false end.

(** [stat] on the path succeeds. *)
Definition stat_ok (r : root) (f : filesystem) (p : string) : bool :=
  match lookup_entry r p f with
  | Some e => negb (is_broken e)
  | None => false
  end.

(** An attribute of what a path names (0 where there is nothing). *)
Definition attr_of (g : entry -> Z) (r : root) (f : filesystem) (p : string) : Z :=
  match lookup_entry r p f with Some e => g e | None => 0 end.

Definition mtime_of : root -> filesystem -> string -> Z := attr_of mtime.

Definition ctime_of : root -> filesystem -> string -> Z := attr_of ctime.

Definition isdir_of (r : root) (f : filesystem) (p : string) : bool :=
  match lookup_entry r p f with Some e => is_directory e | None => false end.

(** Names ordered by a key, largest first, ties in the given order. *)
Definition newest_first (key : string -> Z) (ps : list string) : list string :=
  (Py.sort_desc ((fun p => (key p, p)) <$> ps)).*2.

(** What [glob.glob] matches below a root. *)
Definition matching (r : root) (pat : string) (f : filesystem) : list string :=
  filter (fun n => glob_match pat n) (listing r f).

(** The sub-directories of a root, as the list comprehension over
    [os.listdir] and [os.path.isdir] finds them. *)
Definition folders (r : root) (f : filesystem) : list string :=
  filter (fun p => isdir_of r f p) (listing r f).

(** The deletion candidates of a retention of [keep] entries: what
    [if len(l) > keep: for x in l[keep:]] iterates over, [l] being the
    names sorted newest first. *)
Definition candidates (key : string -> Z) (keep : Z) (ps : list string)
  : list string :=
  let sorted := newest_first key ps in
  if Py.len sorted >? keep then Py.slice_from keep sorted else [].

(** The common shape of [cleanup_reports] and [cleanup_logs]. *)
Definition retain_matching (r : root) (pat : string) (max_files : option Z)
  : M unit :=
  let keep := Py.or_default max_files REPORTING_SETTINGS.max_reports_to_keep in
  let* ex := os_path_exists r in
  if negb ex then logger_info (DirectoryDoesNotExist r)
  else
    logger_info (CleaningUpKeeping r keep) ;;;
    let* files := glob_glob r pat in
    let* files := sort_by_key_reverse (os_path_getmtime r) files in
    if Py.len files >? keep then
      for_each (Py.slice_from keep files) (fun old =>
        try_except
          (os_remove r old ;;; logger_info (DeletedOld r old))
          (fun e => logger_error (FailedToDelete r old e)))
    else ret tt.

(** [x] may stand before [y] in a list sorted by descending key. *)
Definition ge_key {A} (x y : Z * A) : Prop := y.1 <= x.1.

(** [x] comes strictly before [y] in [l]. *)
Definition precedes {A} (l : list A) (x y : A) : Prop :=
  exists l1 l2 l3, l = l1 ++ x :: l2 ++ y :: l3.

(** The token of one report, as a function of the file system. *)
Definition timestamp_token (utc_offset : Z -> Z) (f : filesystem)
    (report : string) : string :=
  match Py.split1_second "_" report with
  | Some rest => Py.rsplit1_first "." rest
  | None => Py.strftime_stamp utc_offset (mtime_of Reports f report)
  end.

(** The reports the [match_reports] strategy looks at: the first
    [num_reports] of the html files, newest first. *)
Definition recent_reports (num_reports : Z) (f : filesystem) : list string :=
  Py.slice_to num_reports
    (newest_first (mtime_of Reports f) (matching Reports "*.html" f)).

Definition report_tokens (utc_offset : Z -> Z) (num_reports : Z)
    (f : filesystem) : list string :=
  timestamp_token utc_offset f <$> recent_reports num_reports f.

(** The folders whose name contains none of the tokens. *)
Definition unmatched (utc_offset : Z -> Z) (num_reports : Z) (f : filesystem)
  : list string :=
  filter (fun p => negb (match_found (report_tokens utc_offset num_reports f) p))
         (folders Screenshots f).

(** ** The deletion loops, as functions of the world

    [remove_error] and [rmtree_error] tell how [os.remove] and
    [shutil.rmtree] fail on what the path names ([None]: they succeed). *)
Definition remove_error (oe : option entry) : option exn :=
  match oe with
  | None => Some FileNotFoundError
  | Some e =>
      match ekind e with
      | Directory => Some IsADirectoryError
      | _ => if removable e then None else Some PermissionError
      end
  end.

Definition rmtree_error (oe : option entry) : option exn :=
  match oe with
  | None => Some FileNotFoundError
  | Some e =>
      match ekind e with
      | Directory => if removable e then None else Some PermissionError
      | _ => Some NotADirectoryError
      end
  end.

(** One pass of a loop body [try: delete(p); info(...) except: error(...)]. *)
Definition attempt (err : option entry -> option exn) (r : root) (p : string)
    (w : world) : world :=
  match err (lookup_entry r p (fs w)) with
  | None => World (unlink r p (fs w)) (log w ++ [(INFO, DeletedOld r p)])
  | Some e => World (fs w) (log w ++ [(ERROR, FailedToDelete r p e)])
  end.

Definition sweep (err : option entry -> option exn) (r : root)
    (ps : list string) (w : world) : world :=
  foldl (fun w p => attempt err r p w) w ps.

(** Deleting [p] succeeds in [f]. *)
Definition succeeds (err : option entry -> option exn) (r : root)
    (f : filesystem) (p : string) : bool :=
  match err (lookup_entry r p f) with None => true | Some _ => false end.

(** The name is a deletion candidate whose deletion succeeds. *)
Definition deleted (err : option entry -> option exn) (r : root)
    (f : filesystem) (ps : list string) (p : string) : bool :=
  bool_decide (p ∈ ps) && succeeds err r f p.

Definition doomed (err : option entry -> option exn) (r : root)
    (f : filesystem) (ps : list string) (e : entry) : bool :=
  deleted err r f ps (name e).

(** The log line of the attempt on [p]. *)
Definition outcome (err : option entry -> option exn) (r : root)
    (f : filesystem) (p : string) : level * message :=
  match err (lookup_entry r p f) with
  | None => (INFO, DeletedOld r p)
  | Some e => (ERROR, FailedToDelete r p e)
  end.


(** [os.path.exists] on a root. *)
Definition root_exists (r : root) (f : filesystem) : bool :=
  match node_of r f with Absent => false | _ => true end.

(** ** The operations as one interface *)

Inductive operation :=
| CleanReports (max_reports : option Z)
| CleanLogs (max_logs : option Z)
| CleanScreenshots (strategy : string) (max_screenshots reports_to_match : option Z).

Definition run (utc_offset : Z -> Z) (op : operation) : M unit :=
  match op with
  | CleanReports k => cleanup_reports k
  | CleanLogs k => cleanup_logs k
  | CleanScreenshots s ms rtm => cleanup_screenshots utc_offset s ms rtm
  end.

(** The root an operation deletes from. *)
Definition target (op : operation) : root :=
  match op with
  | CleanReports _ => Reports
  | CleanLogs _ => Logs
  | CleanScreenshots _ _ _ => Screenshots
  end.

Definition deletion_error (op : operation) : option entry -> option exn :=
  match op with
  | CleanScreenshots _ _ _ => rmtree_error
  | _ => remove_error
  end.

(** The entries an operation selects for deletion. *)
Definition eligible (utc_offset : Z -> Z) (op : operation) (f : filesystem)
  : list string :=
  match op with
  | CleanReports k =>
      candidates (mtime_of Reports f)
        (Py.or_default k REPORTING_SETTINGS.max_reports_to_keep)
        (matching Reports "*.html" f)
  | CleanLogs k =>
      candidates (mtime_of Logs f)
        (Py.or_default k REPORTING_SETTINGS.max_reports_to_keep)
        (matching Logs "test_execution_*.log" f)
  | CleanScreenshots s ms rtm =>
      if String.eqb s "match_reports" then
        unmatched utc_offset
          (Py.or_default rtm REPORTING_SETTINGS.max_reports_to_keep) f
      else if String.eqb s "last_execution" then
        candidates (ctime_of Screenshots f)
          (Py.or_default ms SCREENSHOT_SETTINGS.max_screenshots_to_keep)
          (folders Screenshots f)
      else []
  end.

(** The listing and [stat] calls of an operation succeed: no matched
    report or log is a broken link, and a screenshots root that exists
    is a directory. *)
Definition readable (op : operation) (f : filesystem) : bool :=
  match op with
  | CleanReports _ => forallb (stat_ok Reports f) (matching Reports "*.html" f)
  | CleanLogs _ =>
      forallb (stat_ok Logs f) (matching Logs "test_execution_*.log" f)
  | CleanScreenshots s _ _ =>
      match screenshots_node f with
      | Absent => true
      | NotDir =>
          negb (String.eqb s "match_reports" || String.eqb s "last_execution")
      | Dir _ =>
          if String.eqb s "match_reports"
          then forallb (stat_ok Reports f) (matching Reports "*.html" f)
          else true
      end
  end.

(** ** Sample file systems *)

Module Demo.

Definition file (n : string) (t : Z) : entry := Entry n RegularFile t t true.

Definition folder (n : string) (t : Z) : entry := Entry n Directory t t true.

Definition utc (_ : Z) : Z := 0.

(** Six reports, one second apart, listed out of order. The last name
    has no underscore; its modification time is 2024-01-15 10:30:05. *)
Definition six_reports : list entry :=
  [ file "report_2024-01-15_10-30-02.html" 1705314602000000;
    file "report_2024-01-15_10-30-00.html" 1705314600000000;
    file "reportfinal.html" 1705314605000000;
    file "report_2024-01-15_10-30-04.html" 1705314604000000;
    file "report_2024-01-15_10-30-01.html" 1705314601000000;
    file "report_2024-01-15_10-30-03.html" 1705314603000000;
    file "notes.txt" 1705314609000000 ].

Definition three_logs : list entry :=
  [ file "test_execution_2024-01-15_10-30-00.log" 1705314600000000;
    file "test_execution_2024-01-15_10-30-02.log" 1705314602000000;
    file "test_execution_2024-01-15_10-30-01.log" 1705314601000000 ].

Definition four_folders : list entry :=
  [ folder "run_2024-01-15_10-30-05" 1705314605000000;
    folder "run_2024-01-15_10-30-00" 1705314600000000;
    folder "run_2024-01-15_10-30-04" 1705314604000000;
    folder "run_2024-02-01_09-00-00" 1706778000000000;
    file "index.txt" 1705314600000000 ].

Definition disk : filesystem :=
  FS (Dir six_reports) (Dir three_logs) (Dir four_folders).



(** No reports at all, and a folder whose deletion fails. *)
Definition locked_folder : filesystem :=
  FS Absent Absent
     (Dir [ Entry "run_locked" Directory 5 5 false; folder "run_free" 6 ]).

Definition nothing : filesystem := FS Absent Absent Absent.

End Demo.

(* ================================================================== *)
(** * [utilities/logger.py] and [utilities/screenshot_utils.py]: names *)
(* ================================================================== *)

Module Logger.
(** [_setup_logger]: the name of the log file of a process started at
    [now], [f"test_execution_{timestamp}.log"]. *)
Definition log_file_name (utc_offset : Z -> Z) (now : Z) : string :=
  ("test_execution_" +:+ Py.strftime_stamp utc_offset now +:+ ".log")%string.
End Logger.

Module ScreenshotUtils.
(** [timestamp_folder]: the name of the folder that [take_screenshot],
    [take_element_screenshot] and the failure hook of [conftest.py]
    create below the screenshots root. *)
Definition timestamp_folder (utc_offset : Z -> Z) (now : Z) : string :=
  Py.strftime_stamp utc_offset now.
End ScreenshotUtils.

(* ================================================================== *)
(** * [cleanup.py] *)
(* ================================================================== *)

Module Script.

(** The [Namespace] that [parse_arguments] returns. *)
Record Namespace := {
  reports : Z;
  screenshots : string;
  max_screenshots : Z;
  reports_to_match : Z;
}.



(** The lines of the script itself and those of [CleanupUtils], in
    one log. *)
Inductive script_message :=
| StartingCleanupProcess
| CleanupProcessCompleted
| FromCleanupUtils (m : message).

Record session := Session {
  sfs : filesystem;
  slog : list (level * script_message);
}.

Definition script_info (m : script_message) (s : session) : session :=
  Session (sfs s) (slog s ++ [(INFO, m)]).

(** A call into [CleanupUtils]: its lines are appended to the log of
    the session. *)
Definition call (m : M unit) (s : session) : (exn + unit) * session :=
  let '(res, w) := m (World (sfs s) []) in
  (res, Session (fs w)
          (slog s ++ ((fun lm => (lm.1, FromCleanupUtils lm.2)) <$> log w))).

(** [main], after the arguments are parsed. An exception of a call
    ends the script there. *)
Definition main_with (utc_offset : Z -> Z) (args : Namespace) (s : session)
  : (exn + unit) * session :=
  let s := script_info StartingCleanupProcess s in
  match call (cleanup_reports (Some (reports args))) s with
  | (inl e, s) => (inl e, s)
  | (inr _, s) =>
      match call (cleanup_logs (Some (reports args))) s with
      | (inl e, s) => (inl e, s)
      | (inr _, s) =>
          match call (cleanup_screenshots utc_offset (screenshots args)
                        (Some (max_screenshots args))
                        (Some (reports_to_match args))) s with
          | (inl e, s) => (inl e, s)
          | (inr _, s) => (inr tt, script_info CleanupProcessCompleted s)
          end
      end
  end.


End Script.

(* ================================================================== *)
(** * Further vocabulary *)
(* ================================================================== *)

(** After a retention of [keep] entries among [ps], a name that is
    among the first [keep] of the sorted names, or a later one whose
    deletion fails. *)
Definition survivor (err : option entry -> option exn) (r : root)
    (f : filesystem) (key : string -> Z) (keep : nat) (ps : list string)
    (p : string) : Prop :=
  p ∈ take keep (newest_first key ps)
  \/ (p ∈ drop keep (newest_first key ps) /\ succeeds err r f p = false).

(** The three retentions by count ([cleanup_reports], [cleanup_logs]
    and the [last_execution] strategy) side by side: the count they are
    given, the names they choose among, and the key they sort by. *)
Definition count_of (op : operation) : option (option Z) :=
  match op with
  | CleanReports k => Some k
  | CleanLogs k => Some k
  | CleanScreenshots s ms _ =>
      if String.eqb s "last_execution" then Some ms else None
  end.

Definition pool (op : operation) (f : filesystem) : list string :=
  match op with
  | CleanReports _ => matching Reports "*.html" f
  | CleanLogs _ => matching Logs "test_execution_*.log" f
  | CleanScreenshots _ _ _ => folders Screenshots f
  end.

Definition sort_key (op : operation) (f : filesystem) : string -> Z :=
  match op with
  | CleanScreenshots _ _ _ => ctime_of Screenshots f
  | _ => mtime_of (target op) f
  end.

(** The line an operation logs before it lists anything. *)
Definition first_line (op : operation) (f : filesystem) : level * message :=
  if root_exists (target op) f then
    match op with
    | CleanReports k =>
        (INFO, CleaningUpKeeping Reports
                 (Py.or_default k REPORTING_SETTINGS.max_reports_to_keep))
    | CleanLogs k =>
        (INFO, CleaningUpKeeping Logs
                 (Py.or_default k REPORTING_SETTINGS.max_reports_to_keep))
    | CleanScreenshots s ms rtm =>
        if String.eqb s "match_reports" then
          (INFO, CleaningUpToMatch
                   (Py.or_default rtm REPORTING_SETTINGS.max_reports_to_keep))
        else if String.eqb s "last_execution" then
          (INFO, CleaningUpKeeping Screenshots
                   (Py.or_default ms SCREENSHOT_SETTINGS.max_screenshots_to_keep))
        else (ERROR, UnknownStrategy s)
    end
  else (INFO, DirectoryDoesNotExist (target op)).

(** The exception of an operation that is not readable: the sort key
    fails first, the listing of the screenshots root after it. *)
Definition failure (op : operation) (f : filesystem) : exn :=
  match op with
  | CleanScreenshots s _ _ =>
      if String.eqb s "match_reports"
         && negb (forallb (stat_ok Reports f) (matching Reports "*.html" f))
      then FileNotFoundError
      else NotADirectoryError
  | _ => FileNotFoundError
  end.

(** The roots an operation reads. *)
Definition reads (op : operation) (r : root) : bool :=
  match op, r with
  | CleanReports _, Reports => true
  | CleanLogs _, Logs => true
  | CleanScreenshots _ _ _, Screenshots => true
  | CleanScreenshots s _ _, Reports => String.eqb s "match_reports"
  | _, _ => false
  end.

(** The three calls of [main], in their order. *)
Definition reports_step (args : Script.Namespace) : operation :=
  CleanReports (Some (Script.reports args)).

Definition logs_step (args : Script.Namespace) : operation :=
  CleanLogs (Some (Script.reports args)).

Definition screenshots_step (args : Script.Namespace) : operation :=
  CleanScreenshots (Script.screenshots args)
    (Some (Script.max_screenshots args))
    (Some (Script.reports_to_match args)).

(** A line of [CleanupUtils] in the log of the script. *)
Definition from_utils (lm : level * message)
  : level * Script.script_message :=
  (lm.1, Script.FromCleanupUtils lm.2).

(** A character that [strftime("%Y-%m-%d_%H-%M-%S")] can produce. *)
Definition stamp_char (c : ascii) : bool := Py.has_char c "0123456789-_".

(* ================================================================== *)
(** * The model on concrete inputs *)
(* ================================================================== *)

Example strftime_2024 :
  Py.strftime_stamp Demo.utc 1705314600000000 = "2024-01-15_10-30-00"%string.
Proof. reflexivity. Qed.

Example strftime_leap_day_east_of_utc :
  Py.strftime_stamp (fun _ => 3600) 1709251199999999
  = "2024-03-01_00-59-59"%string.
Proof. reflexivity. Qed.

Example fnmatch_html :
  Py.fnmatch "*.html" "report_1.html" = true
  /\ Py.fnmatch "*.html" "report_1.htm" = false
  /\ Py.fnmatch "test_execution_*.log" "test_execution_.log" = true
  /\ Py.fnmatch "test_execution_*.log" "test_execution.log" = false.
Proof. repeat split. Qed.

Example glob_skips_hidden_names :
  Py.fnmatch "*.html" ".draft.html" = true
  /\ glob_match "*.html" ".draft.html" = false.
Proof. split; reflexivity. Qed.

Example token_of_prefixed_name :
  timestamp_token Demo.utc Demo.disk "playwright_report_2024-01-15.html"
  = "report_2024-01-15"%string.
Proof. reflexivity. Qed.

Example token_of_plain_name :
  timestamp_token Demo.utc Demo.disk "reportfinal.html"
  = "2024-01-15_10-30-05"%string.
Proof. reflexivity. Qed.

Example contains_examples :
  Py.contains "10-30" "run_2024-01-15_10-30-05" = true
  /\ Py.contains "" "run" = true
  /\ Py.contains "10-31" "run_2024-01-15_10-30-05" = false.
Proof. repeat split. Qed.

Example sort_is_stable :
  Py.sort_desc [(1, "a"); (3, "b"); (2, "c"); (3, "d"); (1, "e")]%string
  = [(3, "b"); (3, "d"); (2, "c"); (1, "a"); (1, "e")]%string.
Proof. reflexivity. Qed.

Example negative_slice :
  Py.slice_from (-1) [1; 2; 3] = [3] /\ Py.slice_to (-1) [1; 2; 3] = [1; 2]
  /\ Py.slice_from (-5) [1; 2; 3] = [1; 2; 3] /\ Py.slice_from 5 [1; 2; 3] = [].
Proof. repeat split. Qed.

Example reports_keep_two :
  cleanup_reports (Some 2) (World Demo.disk [])
  = (inr tt,
     World (FS (Dir [ Demo.file "reportfinal.html" 1705314605000000;
                      Demo.file "report_2024-01-15_10-30-04.html" 1705314604000000;
                      Demo.file "notes.txt" 1705314609000000 ])
               (Dir Demo.three_logs) (Dir Demo.four_folders))
           [ (INFO, CleaningUpKeeping Reports 2);
             (INFO, DeletedOld Reports "report_2024-01-15_10-30-03.html");
             (INFO, DeletedOld Reports "report_2024-01-15_10-30-02.html");
             (INFO, DeletedOld Reports "report_2024-01-15_10-30-01.html");
             (INFO, DeletedOld Reports "report_2024-01-15_10-30-00.html") ]).
Proof. reflexivity. Qed.

Example screenshots_match_two_reports :
  listing Screenshots
    (fs (cleanup_screenshots Demo.utc "match_reports" None (Some 2)
           (World Demo.disk [])).2)
  = [ "run_2024-01-15_10-30-05"; "run_2024-01-15_10-30-04"; "index.txt" ]%string.
Proof. reflexivity. Qed.

Example screenshots_last_two :
  listing Screenshots
    (fs (cleanup_screenshots Demo.utc "last_execution" (Some 2) None
           (World Demo.disk [])).2)
  = [ "run_2024-01-15_10-30-05"; "run_2024-02-01_09-00-00"; "index.txt" ]%string.
Proof. reflexivity. Qed.

Example loop_goes_on_after_a_failure :
  cleanup_screenshots Demo.utc "last_execution" (Some 0) None
    (World (FS Absent Absent
              (Dir [ Demo.folder "a" 1; Demo.folder "b" 2; Demo.folder "c" 3;
                     Entry "d" Directory 2 2 false; Demo.folder "e" 5;
                     Demo.folder "f" 6; Demo.folder "g" 7 ])) [])
  = (inr tt,
     World (FS Absent Absent
              (Dir [ Demo.folder "b" 2; Demo.folder "c" 3;
                     Entry "d" Directory 2 2 false; Demo.folder "e" 5;
                     Demo.folder "f" 6; Demo.folder "g" 7 ]))
           [ (INFO, CleaningUpKeeping Screenshots 5);
             (ERROR, FailedToDelete Screenshots "d" PermissionError);
             (INFO, DeletedOld Screenshots "a") ]).
Proof. reflexivity. Qed.

(* ================================================================== *)
(** * The stable descending sort *)
(* ================================================================== *)

Section SortFacts.
Context {A : Type}.
Implicit Types (x y : Z * A) (l : list (Z * A)).

Lemma insert_desc_perm x l : Py.insert_desc x l ≡ₚ x :: l.
Proof.
  induction l as [|y l IH]; simpl; [done|].
  destruct (x.1 <? y.1); [|done].
  rewrite IH. apply Permutation_swap.
Qed.

Lemma sort_desc_perm l : Py.sort_desc l ≡ₚ l.
Proof.
  induction l as [|x l IH]; simpl; [done|].
  fold (Py.sort_desc l). by rewrite insert_desc_perm, IH.
Qed.

Lemma insert_desc_sorted x l :
  StronglySorted ge_key l -> StronglySorted ge_key (Py.insert_desc x l).
Proof.
  induction l as [|y l IH]; simpl; intros Hs.
  - repeat constructor.
  - apply StronglySorted_inv in Hs as [Hl Hy].
    destruct (Z.ltb_spec x.1 y.1) as [Hlt|Hge].
    + constructor; [by apply IH|].
      rewrite insert_desc_perm. constructor; [unfold ge_key; lia|done].
    + constructor; [by constructor|].
      constructor; [done|].
      eapply Forall_impl; [exact Hy|]. unfold ge_key. intros z. simpl. lia.
Qed.

Lemma sort_desc_sorted l : StronglySorted ge_key (Py.sort_desc l).
Proof.
  induction l as [|x l IH]; simpl; [constructor|].
  by apply insert_desc_sorted.
Qed.

(** An element not smaller than the head goes to the front. *)
Lemma insert_desc_front x l :
  Forall (ge_key x) l -> Py.insert_desc x l = x :: l.
Proof.
  destruct l as [|y l]; simpl; [done|].
  intros Hx. apply Forall_cons in Hx as [Hy _].
  unfold ge_key in Hy. destruct (Z.ltb_spec x.1 y.1); [lia|done].
Qed.

Section Filter.
Context (P : Z * A -> Prop) `{!forall x, Decision (P x)}.

Lemma filter_insert_desc x l :
  StronglySorted ge_key l ->
  filter P (Py.insert_desc x l)
  = if decide (P x) then Py.insert_desc x (filter P l) else filter P l.
Proof.
  induction l as [|y l IH]; simpl; intros Hs.
  - rewrite filter_cons, filter_nil. by destruct (decide (P x)).
  - apply StronglySorted_inv in Hs as [Hl Hy].
    destruct (Z.ltb_spec x.1 y.1) as [Hlt|Hge].
    + rewrite !filter_cons, IH by done.
      destruct (decide (P x)), (decide (P y)); simpl; try done.
      destruct (Z.ltb_spec x.1 y.1); [done|lia].
    + rewrite (filter_cons _ x). destruct (decide (P x)); [|done].
      symmetry. apply insert_desc_front.
      apply Forall_forall. intros z Hz.
      apply list_elem_of_filter in Hz as [_ Hz].
      apply elem_of_cons in Hz as [->|Hz]; [done|].
      rewrite Forall_forall in Hy. specialize (Hy z Hz).
      unfold ge_key in *. lia.
Qed.

(** Sorting commutes with dropping elements. *)
Lemma sort_desc_filter l :
  Py.sort_desc (filter P l) = filter P (Py.sort_desc l).
Proof.
  induction l as [|x l IH]; [done|].
  rewrite filter_cons. simpl. fold (Py.sort_desc l).
  rewrite filter_insert_desc by apply sort_desc_sorted.
  destruct (decide (P x)); simpl; by rewrite <-?IH.
Qed.
End Filter.

(** Stability: among elements of one key the given order is kept. *)
Lemma sort_desc_stable (k : Z) l :
  filter (fun x => x.1 = k) (Py.sort_desc l) = filter (fun x => x.1 = k) l.
Proof.
  rewrite <-sort_desc_filter.
  induction l as [|x l IH]; [done|].
  rewrite filter_cons. destruct (decide (x.1 = k)) as [Hk|]; [|done].
  simpl. fold (Py.sort_desc (filter (fun x => x.1 = k) l)). rewrite IH.
  apply insert_desc_front, Forall_forall. intros z Hz.
  apply list_elem_of_filter in Hz as [Hz _]. unfold ge_key. lia.
Qed.
End SortFacts.

(* ================================================================== *)
(** * Looking up and unlinking entries *)
(* ================================================================== *)

Lemma named_spec p e : named p e = true <-> name e = p.
Proof. unfold named. apply String.eqb_eq. Qed.

Lemma named_true p e : named p e <-> name e = p.
Proof. rewrite Is_true_true. apply named_spec. Qed.

Lemma find_named_Some p es e :
  List.find (named p) es = Some e -> e ∈ es /\ name e = p.
Proof.
  intros H. apply find_some in H as [Hin Hn].
  split; [by apply list_elem_of_In|by apply named_spec].
Qed.

Lemma find_named_NoDup es e :
  NoDup (name <$> es) -> e ∈ es -> List.find (named (name e)) es = Some e.
Proof.
  induction es as [|a es IH]; simpl; intros Hnd Hin; [inversion Hin|].
  apply NoDup_cons in Hnd as [Ha Hnd].
  unfold named at 1. destruct (String.eqb_spec (name a) (name e)) as [Heq|Hne].
  - apply elem_of_cons in Hin as [->|Hin]; [done|].
    exfalso. apply Ha. rewrite Heq. apply list_elem_of_fmap. eauto.
  - apply elem_of_cons in Hin as [->|Hin]; [done|]. by apply IH.
Qed.

Lemma find_named_filter_ne p q es :
  q <> p ->
  List.find (named q) (filter (fun e => negb (named p e)) es)
  = List.find (named q) es.
Proof.
  intros Hne. induction es as [|a es IH]; [done|].
  rewrite filter_cons. destruct (named p a) eqn:Hpa; simpl.
  - rewrite IH. destruct (named q a) eqn:Hq; [|done].
    apply named_spec in Hq, Hpa. congruence.
  - by rewrite IH.
Qed.

Lemma entries_set_node r es f : entries r (set_node r (Dir es) f) = es.
Proof. by destruct r. Qed.

Lemma node_of_set_node_ne r r' n f :
  r' <> r -> node_of r' (set_node r n f) = node_of r' f.
Proof. by destruct r, r'. Qed.

Lemma entries_unlink r p f :
  entries r (unlink r p f) = filter (fun e => negb (named p e)) (entries r f).
Proof. apply entries_set_node. Qed.

Lemma lookup_unlink_ne r p q f :
  q <> p -> lookup_entry r q (unlink r p f) = lookup_entry r q f.
Proof.
  intros. unfold lookup_entry. rewrite entries_unlink.
  by apply find_named_filter_ne.
Qed.

Lemma lookup_entry_NoDup r f e :
  NoDup (listing r f) -> e ∈ entries r f -> lookup_entry r (name e) f = Some e.
Proof. apply find_named_NoDup. Qed.

Lemma filter_all {A} (P : A -> Prop) `{!forall x, Decision (P x)} (l : list A) :
  (forall x, x ∈ l -> P x) -> filter P l = l.
Proof.
  induction l as [|a l IH]; intros Hall; [done|].
  rewrite filter_cons_True by (apply Hall; left).
  f_equal. apply IH. intros x Hx. apply Hall. by right.
Qed.

Lemma filter_none {A} (P : A -> Prop) `{!forall x, Decision (P x)} (l : list A) :
  (forall x, x ∈ l -> ~ P x) -> filter P l = [].
Proof.
  induction l as [|a l IH]; intros Hall; [done|].
  rewrite filter_cons_False by (apply Hall; left).
  apply IH. intros x Hx. apply Hall. by right.
Qed.

(* ================================================================== *)
(** * Running the primitive calls *)
(* ================================================================== *)

Lemma os_remove_run r p f lg :
  os_remove r p (World f lg)
  = match remove_error (lookup_entry r p f) with
    | None => (inr tt, World (unlink r p f) lg)
    | Some e => (inl e, World f lg)
    end.
Proof.
  unfold os_remove, bind, get_fs, remove_error. simpl.
  destruct (lookup_entry r p f) as [e|]; [|done].
  by destruct (ekind e), (removable e).
Qed.

Lemma shutil_rmtree_run r p f lg :
  shutil_rmtree r p (World f lg)
  = match rmtree_error (lookup_entry r p f) with
    | None => (inr tt, World (unlink r p f) lg)
    | Some e => (inl e, World f lg)
    end.
Proof.
  unfold shutil_rmtree, bind, get_fs, rmtree_error. simpl.
  destruct (lookup_entry r p f) as [e|]; [|done].
  by destruct (ekind e), (removable e).
Qed.

Section Loops.
Context (del : root -> string -> M unit) (err : option entry -> option exn).
Hypothesis del_run : forall r p f lg,
  del r p (World f lg)
  = match err (lookup_entry r p f) with
    | None => (inr tt, World (unlink r p f) lg)
    | Some e => (inl e, World f lg)
    end.

(** The loop body never lets an exception out. *)
Lemma try_delete_run r p w :
  try_except
    (del r p ;;; logger_info (DeletedOld r p))
    (fun e => logger_error (FailedToDelete r p e)) w
  = (inr tt, attempt err r p w).
Proof.
  destruct w as [f lg]. unfold try_except, bind, attempt. rewrite del_run.
  simpl. by destruct (err (lookup_entry r p f)).
Qed.

Lemma for_each_try_delete r ps w :
  for_each ps (fun p =>
    try_except
      (del r p ;;; logger_info (DeletedOld r p))
      (fun e => logger_error (FailedToDelete r p e))) w
  = (inr tt, sweep err r ps w).
Proof.
  revert w. induction ps as [|p ps IH]; intros w; [done|].
  simpl. unfold bind at 1. rewrite try_delete_run. apply IH.
Qed.
End Loops.

Lemma for_each_guard {A} (c : A -> bool) (body : A -> M unit) (l : list A) w :
  for_each l (fun x => if c x then body x else ret tt) w
  = for_each (filter (fun x => c x) l) body w.
Proof.
  revert w. induction l as [|x l IH]; intros w; [done|].
  rewrite filter_cons. simpl. unfold bind at 1.
  destruct (c x) eqn:Hc; simpl.
  - unfold bind. destruct (body x w) as [[e|[]] w']; [done|apply IH].
  - apply IH.
Qed.

(* ================================================================== *)
(** * What a deletion loop leaves behind *)
(* ================================================================== *)

Section Sweep.
Context (err : option entry -> option exn).

(** Other roots are not touched. *)
Lemma sweep_other_roots r r' ps w :
  r' <> r -> node_of r' (fs (sweep err r ps w)) = node_of r' (fs w).
Proof.
  intros Hne. revert w. induction ps as [|p ps IH]; intros w; [done|].
  simpl. rewrite IH. unfold attempt.
  destruct (err (lookup_entry r p (fs w))); simpl; [done|].
  by apply node_of_set_node_ne.
Qed.

(** The entries that remain are those no successful attempt named. *)
Lemma sweep_entries r ps f lg :
  entries r (fs (sweep err r ps (World f lg)))
  = filter (fun e => negb (doomed err r f ps e)) (entries r f).
Proof.
  revert f lg. induction ps as [|p ps IH]; intros f lg.
  - simpl. symmetry. by apply filter_all.
  - simpl. unfold attempt. simpl.
    destruct (err (lookup_entry r p f)) as [x|] eqn:Herr.
    + rewrite IH. apply list_filter_iff. intros e.
      unfold doomed, deleted. destruct (decide (name e = p)) as [Heq|Hne].
      * rewrite Heq. unfold succeeds. rewrite Herr.
        by rewrite !andb_false_r.
      * rewrite (bool_decide_ext (name e ∈ p :: ps) (name e ∈ ps)); [done|].
        rewrite elem_of_cons. tauto.
    + rewrite IH, entries_unlink, list_filter_filter.
      apply list_filter_iff. intros e. unfold doomed, deleted.
      destruct (decide (name e = p)) as [Heq|Hne].
      * rewrite (bool_decide_eq_true_2 (name e ∈ p :: ps))
          by (rewrite Heq; left).
        rewrite Heq. unfold succeeds at 2. rewrite Herr. simpl.
        split; [|done]. intros [_ Hn]. apply negb_prop_elim in Hn.
        apply Hn. by apply named_true.
      * unfold succeeds. rewrite lookup_unlink_ne by done.
        rewrite (bool_decide_ext (name e ∈ p :: ps) (name e ∈ ps))
          by (rewrite elem_of_cons; tauto).
        split; [tauto|]. intros Hd. split; [done|].
        apply negb_prop_intro. by rewrite named_true.
Qed.

(** Attempts that all fail change nothing but the log. *)
Lemma sweep_all_fail r ps f lg :
  (forall p, p ∈ ps -> succeeds err r f p = false) ->
  sweep err r ps (World f lg) = World f (lg ++ (outcome err r f <$> ps)).
Proof.
  revert lg. induction ps as [|p ps IH]; intros lg Hf; simpl.
  - by rewrite app_nil_r.
  - unfold attempt. simpl.
    pose proof (Hf p (list_elem_of_here _ _)) as Hp.
    unfold succeeds in Hp. unfold outcome at 1.
    destruct (err (lookup_entry r p f)); [|done].
    rewrite IH, <-app_assoc; [done|].
    intros q Hq. apply Hf. by right.
Qed.


(** With distinct candidates the log is known line by line. *)
Lemma sweep_log_exact r ps f lg :
  NoDup ps ->
  log (sweep err r ps (World f lg)) = lg ++ (outcome err r f <$> ps).
Proof.
  revert f lg. induction ps as [|p ps IH]; intros f lg Hnd; simpl.
  - by rewrite app_nil_r.
  - apply NoDup_cons in Hnd as [Hp Hnd].
    unfold attempt, outcome at 1. simpl.
    destruct (err (lookup_entry r p f)) as [x|].
    + rewrite IH, <-app_assoc by done. done.
    + rewrite IH, <-app_assoc by done. simpl. do 2 f_equal.
      apply list_fmap_ext. intros i q Hq. unfold outcome.
      rewrite lookup_unlink_ne; [done|].
      intros ->. apply Hp. by eapply list_elem_of_lookup_2.
Qed.
End Sweep.

Lemma remove_error_missing : remove_error None <> None.
Proof. done. Qed.

(* ================================================================== *)
(** * Running the reading calls *)
(* ================================================================== *)

Lemma os_path_exists_run r f lg :
  os_path_exists r (World f lg)
  = (inr (match node_of r f with Absent => false | _ => true end), World f lg).
Proof. done. Qed.

Lemma glob_glob_run r pat f lg :
  glob_glob r pat (World f lg) = (inr (matching r pat f), World f lg).
Proof. done. Qed.

Lemma os_stat_run r p f lg :
  os_stat r p (World f lg)
  = match lookup_entry r p f with
    | Some e => if stat_ok r f p then (inr e, World f lg)
                else (inl FileNotFoundError, World f lg)
    | None => (inl FileNotFoundError, World f lg)
    end.
Proof.
  unfold os_stat, bind, get_fs, stat_ok, is_broken. simpl.
  destruct (lookup_entry r p f) as [e|]; [|done]. by destruct (ekind e).
Qed.

(** Decorating a list with a [stat] attribute. *)
Lemma decorate_run (g : entry -> Z) r ps f lg :
  mapM (fun p => let* k := (let* e := os_stat r p in ret (g e)) in ret (k, p))
       ps (World f lg)
  = if forallb (stat_ok r f) ps
    then (inr ((fun p => (attr_of g r f p, p)) <$> ps), World f lg)
    else (inl FileNotFoundError, World f lg).
Proof.
  induction ps as [|p ps IH]; [done|].
  simpl. unfold bind at 1 2 3. rewrite os_stat_run. unfold attr_of.
  destruct (lookup_entry r p f) as [e|] eqn:Hl.
  - destruct (stat_ok r f p) eqn:Hs; [|done]. simpl.
    unfold bind at 1. rewrite IH.
    by destruct (forallb (stat_ok r f) ps).
  - unfold stat_ok. by rewrite Hl.
Qed.

Lemma sort_by_mtime_run r ps f lg :
  sort_by_key_reverse (os_path_getmtime r) ps (World f lg)
  = if forallb (stat_ok r f) ps
    then (inr (newest_first (mtime_of r f) ps), World f lg)
    else (inl FileNotFoundError, World f lg).
Proof.
  unfold sort_by_key_reverse, os_path_getmtime, bind at 1.
  rewrite (decorate_run mtime). by destruct (forallb (stat_ok r f) ps).
Qed.

Lemma sort_by_ctime_run r ps f lg :
  sort_by_key_reverse (os_path_getctime r) ps (World f lg)
  = if forallb (stat_ok r f) ps
    then (inr (newest_first (ctime_of r f) ps), World f lg)
    else (inl FileNotFoundError, World f lg).
Proof.
  unfold sort_by_key_reverse, os_path_getctime, bind at 1.
  rewrite (decorate_run ctime). by destruct (forallb (stat_ok r f) ps).
Qed.

Lemma os_listdir_run r f lg :
  os_listdir r (World f lg)
  = match node_of r f with
    | Absent => (inl FileNotFoundError, World f lg)
    | NotDir => (inl NotADirectoryError, World f lg)
    | Dir es => (inr (name <$> es), World f lg)
    end.
Proof. unfold os_listdir, bind, get_fs. simpl. by destruct (node_of r f). Qed.

Lemma filter_isdir_run r ps f lg :
  filterM (os_path_isdir r) ps (World f lg)
  = (inr (filter (fun p => isdir_of r f p) ps), World f lg).
Proof.
  induction ps as [|p ps IH]; [done|].
  simpl. unfold bind at 1 2. simpl. rewrite IH. simpl.
  rewrite filter_cons. unfold ret.
  change (match lookup_entry r p f with
          | Some e => match ekind e with Directory => true | _ => false end
          | None => false
          end) with (isdir_of r f p).
  by destruct (isdir_of r f p).
Qed.

(** A folder can be [stat]ed. *)
Lemma isdir_stat_ok r f p : isdir_of r f p = true -> stat_ok r f p = true.
Proof.
  unfold isdir_of, stat_ok, is_directory, is_broken.
  destruct (lookup_entry r p f) as [e|]; [|done]. by destruct (ekind e).
Qed.

Lemma folders_stat_ok r f : forallb (stat_ok r f) (folders r f) = true.
Proof.
  apply forallb_forall. intros p Hp. apply list_elem_of_In in Hp.
  apply list_elem_of_filter in Hp as [Hp _].
  apply isdir_stat_ok. by apply Is_true_true.
Qed.

(* ================================================================== *)
(** * Running the cleanup operations *)
(* ================================================================== *)

Lemma retain_matching_run r pat k f lg :
  let keep := Py.or_default k REPORTING_SETTINGS.max_reports_to_keep in
  retain_matching r pat k (World f lg)
  = match node_of r f with
    | Absent => (inr tt, World f (lg ++ [(INFO, DirectoryDoesNotExist r)]))
    | _ =>
        let lg' := lg ++ [(INFO, CleaningUpKeeping r keep)] in
        if forallb (stat_ok r f) (matching r pat f)
        then (inr tt, sweep remove_error r
                        (candidates (mtime_of r f) keep (matching r pat f))
                        (World f lg'))
        else (inl FileNotFoundError, World f lg')
    end.
Proof.
  intros keep. unfold retain_matching. fold keep.
  unfold bind at 1. rewrite os_path_exists_run.
  assert (forall lg',
    (let* files := glob_glob r pat in
     let* files := sort_by_key_reverse (os_path_getmtime r) files in
     if Py.len files >? keep then
       for_each (Py.slice_from keep files) (fun old =>
         try_except
           (os_remove r old ;;; logger_info (DeletedOld r old))
           (fun e => logger_error (FailedToDelete r old e)))
     else ret tt) (World f lg')
    = if forallb (stat_ok r f) (matching r pat f)
      then (inr tt, sweep remove_error r
                      (candidates (mtime_of r f) keep (matching r pat f))
                      (World f lg'))
      else (inl FileNotFoundError, World f lg')) as Hbody.
  { intros lg'. unfold bind at 1. rewrite glob_glob_run.
    unfold bind at 1. rewrite sort_by_mtime_run.
    destruct (forallb (stat_ok r f) (matching r pat f)); [|done].
    unfold candidates. simpl.
    destruct (Py.len (newest_first (mtime_of r f) (matching r pat f)) >? keep).
    - apply (for_each_try_delete os_remove remove_error os_remove_run).
    - done. }
  destruct (node_of r f); simpl; [done| |]; unfold bind at 1; simpl; apply Hbody.
Qed.

Lemma cleanup_reports_unfold k : cleanup_reports k = retain_matching Reports "*.html" k.
Proof. done. Qed.

Lemma cleanup_logs_unfold k :
  cleanup_logs k = retain_matching Logs "test_execution_*.log" k.
Proof. done. Qed.

Lemma last_execution_run k f lg :
  let keep := Py.or_default k SCREENSHOT_SETTINGS.max_screenshots_to_keep in
  let lg' := lg ++ [(INFO, CleaningUpKeeping Screenshots keep)] in
  _cleanup_screenshots_last_execution k (World f lg)
  = match screenshots_node f with
    | Absent => (inl FileNotFoundError, World f lg')
    | NotDir => (inl NotADirectoryError, World f lg')
    | Dir _ =>
        (inr tt, sweep rmtree_error Screenshots
                   (candidates (ctime_of Screenshots f) keep (folders Screenshots f))
                   (World f lg'))
    end.
Proof.
  intros keep lg'. unfold _cleanup_screenshots_last_execution. fold keep.
  unfold bind at 1. simpl. fold lg'.
  unfold bind at 1. rewrite os_listdir_run. simpl.
  destruct (screenshots_node f) as [| |es] eqn:Hn; [done|done|].
  unfold bind at 1. rewrite filter_isdir_run.
  unfold bind at 1. rewrite sort_by_ctime_run.
  assert (filter (fun p => isdir_of Screenshots f p) (name <$> es)
          = folders Screenshots f) as ->.
  { unfold folders, listing, entries. simpl. by rewrite Hn. }
  rewrite folders_stat_ok. unfold candidates. simpl.
  destruct (Py.len (newest_first (ctime_of Screenshots f) (folders Screenshots f)) >? keep).
  - apply (for_each_try_delete shutil_rmtree rmtree_error shutil_rmtree_run).
  - done.
Qed.

(** ** Facts on [newest_first] *)

Lemma newest_first_perm key ps : newest_first key ps ≡ₚ ps.
Proof.
  unfold newest_first. rewrite sort_desc_perm.
  rewrite <-list_fmap_compose.
  change (snd ∘ (fun p => (key p, p))) with (@id string).
  by rewrite list_fmap_id.
Qed.

Lemma elem_of_newest_first key ps p : p ∈ newest_first key ps <-> p ∈ ps.
Proof. by rewrite newest_first_perm. Qed.

Lemma length_newest_first key ps : length (newest_first key ps) = length ps.
Proof. by rewrite newest_first_perm. Qed.

Lemma NoDup_newest_first key ps : NoDup ps -> NoDup (newest_first key ps).
Proof. by rewrite newest_first_perm. Qed.

Lemma newest_first_ext key1 key2 ps :
  (forall p, p ∈ ps -> key1 p = key2 p) ->
  newest_first key1 ps = newest_first key2 ps.
Proof.
  intros H. unfold newest_first. do 2 f_equal.
  apply list_fmap_ext. intros i p Hp. f_equal.
  apply H. by eapply list_elem_of_lookup_2.
Qed.

(** Sorting commutes with dropping names. *)
Lemma newest_first_filter key (P : string -> Prop) `{!forall p, Decision (P p)} ps :
  newest_first key (filter P ps) = filter P (newest_first key ps).
Proof.
  unfold newest_first.
  assert (forall l : list (Z * string), (filter (fun x => P x.2) l).*2 = filter P l.*2)
    as Hsnd.
  { induction l as [|x l IH]; [done|].
    rewrite fmap_cons, !filter_cons. simpl.
    destruct (decide (P x.2)); simpl; by rewrite <-IH. }
  rewrite <-Hsnd, <-sort_desc_filter. do 2 f_equal.
  induction ps as [|p ps IH]; [done|].
  rewrite fmap_cons, !filter_cons. simpl.
  destruct (decide (P p)); simpl; by rewrite <-IH.
Qed.

(** The list is in descending order of the key. *)
Lemma newest_first_sorted key ps l1 l2 p q :
  newest_first key ps = l1 ++ l2 -> p ∈ l1 -> q ∈ l2 -> key q <= key p.
Proof.
  unfold newest_first. intros Heq Hp Hq.
  pose proof (sort_desc_sorted ((fun p => (key p, p)) <$> ps)) as Hs.
  assert (forall x, x ∈ Py.sort_desc ((fun p => (key p, p)) <$> ps) -> x.1 = key x.2)
    as Hkey.
  { intros x Hx. rewrite sort_desc_perm in Hx.
    apply list_elem_of_fmap in Hx as (y & -> & _). done. }
  remember (Py.sort_desc ((fun p => (key p, p)) <$> ps)) as s eqn:Es. clear Es.
  apply fmap_app_inv in Heq as (s1 & s2 & -> & -> & ->).
  apply list_elem_of_fmap in Hp as (x & -> & Hx).
  apply list_elem_of_fmap in Hq as (y & -> & Hy).
  pose proof (StronglySorted_app_1_elem_of _ _ _ _ _ Hs Hx Hy) as Hge.
  unfold ge_key in Hge.
  rewrite <-(Hkey x), <-(Hkey y); [done| |]; rewrite elem_of_app; auto.
Qed.

(** ** The [match_reports] strategy *)

Lemma report_timestamp_run tz p f lg :
  report_timestamp tz p (World f lg)
  = match Py.split1_second "_" p with
    | Some _ => (inr (timestamp_token tz f p), World f lg)
    | None => if stat_ok Reports f p
              then (inr (timestamp_token tz f p), World f lg)
              else (inl FileNotFoundError, World f lg)
    end.
Proof.
  unfold report_timestamp, timestamp_token.
  destruct (Py.split1_second "_" p); [done|].
  unfold os_path_getmtime, bind at 1 2. rewrite os_stat_run.
  unfold mtime_of, attr_of, stat_ok.
  destruct (lookup_entry Reports p f) as [e|]; [|done].
  by destruct (is_broken e).
Qed.

Lemma report_timestamps_run tz ps f lg :
  forallb (stat_ok Reports f) ps = true ->
  mapM (report_timestamp tz) ps (World f lg)
  = (inr (timestamp_token tz f <$> ps), World f lg).
Proof.
  induction ps as [|p ps IH]; [done|].
  simpl. intros [Hp Hps]%andb_prop.
  unfold bind at 1. rewrite report_timestamp_run, Hp.
  assert (forall A (a : A), match Py.split1_second "_" p with
                              | Some _ => a | None => a end = a) as ->
    by (intros; by destruct (Py.split1_second "_" p)).
  unfold bind at 1. by rewrite IH.
Qed.

Lemma forallb_stat_ok_perm r f ps qs :
  (forall p, p ∈ qs -> p ∈ ps) ->
  forallb (stat_ok r f) ps = true -> forallb (stat_ok r f) qs = true.
Proof.
  rewrite !forallb_forall. intros Hsub H p Hp.
  apply H, list_elem_of_In, Hsub. by apply list_elem_of_In.
Qed.

Lemma slice_to_subseteq {A} (k : Z) (l : list A) x : x ∈ Py.slice_to k l -> x ∈ l.
Proof.
  unfold Py.slice_to. destruct (0 <=? k); intros H;
    eapply subseteq_take; exact H.
Qed.

Lemma slice_from_subseteq {A} (k : Z) (l : list A) x : x ∈ Py.slice_from k l -> x ∈ l.
Proof.
  unfold Py.slice_from. destruct (0 <=? k); intros H;
    eapply subseteq_drop; exact H.
Qed.

Lemma match_reports_run tz k f lg :
  let n := Py.or_default k REPORTING_SETTINGS.max_reports_to_keep in
  let lg' := lg ++ [(INFO, CleaningUpToMatch n)] in
  _cleanup_screenshots_match_reports tz k (World f lg)
  = if forallb (stat_ok Reports f) (matching Reports "*.html" f)
    then match screenshots_node f with
         | Absent => (inl FileNotFoundError, World f lg')
         | NotDir => (inl NotADirectoryError, World f lg')
         | Dir _ => (inr tt, sweep rmtree_error Screenshots (unmatched tz n f)
                               (World f lg'))
         end
    else (inl FileNotFoundError, World f lg').
Proof.
  intros n lg'. unfold _cleanup_screenshots_match_reports. fold n.
  unfold bind at 1. simpl. fold lg'.
  unfold bind at 1. rewrite glob_glob_run.
  unfold bind at 1. rewrite sort_by_mtime_run.
  destruct (forallb (stat_ok Reports f) (matching Reports "*.html" f)) eqn:Hok;
    [|done].
  unfold bind at 1. rewrite report_timestamps_run; cycle 1.
  { eapply forallb_stat_ok_perm; [|exact Hok].
    intros p Hp%slice_to_subseteq. by apply elem_of_newest_first in Hp. }
  unfold bind at 1. rewrite os_listdir_run. simpl.
  destruct (screenshots_node f) as [| |es] eqn:Hn; [done|done|].
  unfold bind at 1. rewrite filter_isdir_run.
  assert (filter (fun p => isdir_of Screenshots f p) (name <$> es)
          = folders Screenshots f) as ->.
  { unfold folders, listing, entries. simpl. by rewrite Hn. }
  rewrite (for_each_guard
    (fun folder => negb (match_found (timestamp_token tz f <$>
       Py.slice_to n (newest_first (mtime_of Reports f)
                        (matching Reports "*.html" f))) folder))).
  apply (for_each_try_delete shutil_rmtree rmtree_error shutil_rmtree_run).
Qed.

Lemma cleanup_screenshots_run tz strategy ms rtm f lg :
  cleanup_screenshots tz strategy ms rtm (World f lg)
  = match screenshots_node f with
    | Absent =>
        (inr tt, World f (lg ++ [(INFO, DirectoryDoesNotExist Screenshots)]))
    | _ =>
        if String.eqb strategy "match_reports"
        then _cleanup_screenshots_match_reports tz rtm (World f lg)
        else if String.eqb strategy "last_execution"
        then _cleanup_screenshots_last_execution ms (World f lg)
        else (inr tt, World f (lg ++ [(ERROR, UnknownStrategy strategy)]))
    end.
Proof.
  unfold cleanup_screenshots, bind at 1. rewrite os_path_exists_run. simpl.
  destruct (screenshots_node f); simpl; [done| |];
    by destruct (String.eqb strategy "match_reports"),
               (String.eqb strategy "last_execution").
Qed.

(* ================================================================== *)
(** * What a retention pass keeps *)
(* ================================================================== *)

Lemma filter_ext_elem {A} (P Q : A -> Prop)
    `{!forall x, Decision (P x)} `{!forall x, Decision (Q x)} (l : list A) :
  (forall x, x ∈ l -> P x <-> Q x) -> filter P l = filter Q l.
Proof.
  induction l as [|a l IH]; intros Hext; [done|].
  rewrite !filter_cons.
  assert (filter P l = filter Q l) as ->
    by (apply IH; intros x Hx; apply Hext; by right).
  pose proof (Hext a (list_elem_of_here _ _)) as Ha.
  destruct (decide (P a)), (decide (Q a)); tauto.
Qed.

Lemma filter_comm {A} (P Q : A -> Prop)
    `{!forall x, Decision (P x)} `{!forall x, Decision (Q x)} (l : list A) :
  filter P (filter Q l) = filter Q (filter P l).
Proof. rewrite !list_filter_filter. apply list_filter_iff. tauto. Qed.

Lemma fmap_filter_name (Q : string -> Prop) `{!forall p, Decision (Q p)}
    (es : list entry) :
  name <$> filter (fun e => Q (name e)) es = filter Q (name <$> es).
Proof.
  induction es as [|e es IH]; [done|].
  rewrite fmap_cons, !filter_cons.
  destruct (decide (Q (name e))); simpl; by rewrite <-IH.
Qed.

(** Without repetitions, what is not in the tail is the head. *)
Lemma filter_not_in_drop (k : nat) (s : list string) :
  NoDup s -> filter (fun p => p ∉ drop k s) s = take k s.
Proof.
  intros Hnd.
  transitivity (filter (fun p => p ∉ drop k s) (take k s ++ drop k s));
    [by rewrite take_drop|].
  rewrite <-(take_drop k s) in Hnd. apply NoDup_app in Hnd as (_ & Hdisj & _).
  rewrite filter_app, filter_all, filter_none, app_nil_r; [done| |].
  - intros x Hx Hn. by apply Hn.
  - intros x Hx. by apply Hdisj.
Qed.

Lemma candidates_nonneg key (keep : Z) ps :
  0 <= keep ->
  candidates key keep ps = drop (Z.to_nat keep) (newest_first key ps).
Proof.
  intros Hk. unfold candidates, Py.len, Py.slice_from. simpl.
  destruct (Z.leb_spec 0 keep); [|lia].
  destruct (Z.gtb_spec (Z.of_nat (length (newest_first key ps))) keep); [done|].
  symmetry. apply drop_ge. lia.
Qed.

Section Retained.
Context (err : option entry -> option exn).

Lemma sweep_listing r ps f lg :
  listing r (fs (sweep err r ps (World f lg)))
  = filter (fun p => negb (deleted err r f ps p)) (listing r f).
Proof.
  unfold listing. rewrite sweep_entries. unfold doomed.
  exact (fmap_filter_name (fun p => negb (deleted err r f ps p)) (entries r f)).
Qed.

(** A name that is not deleted names the same entry afterwards. *)
Lemma sweep_lookup r ps f lg p :
  deleted err r f ps p = false ->
  lookup_entry r p (fs (sweep err r ps (World f lg))) = lookup_entry r p f.
Proof.
  revert f lg. induction ps as [|q ps IH]; intros f lg Hp; [done|].
  simpl. unfold attempt. simpl.
  assert (q = p -> succeeds err r f p = false) as Hq.
  { intros ->. unfold deleted in Hp.
    rewrite bool_decide_eq_true_2 in Hp by left. done. }
  assert (bool_decide (p ∈ ps) && succeeds err r f p = false) as Hp'.
  { unfold deleted in Hp. destruct (succeeds err r f p); [|by rewrite andb_false_r].
    rewrite andb_true_r in *. apply bool_decide_eq_false.
    apply bool_decide_eq_false in Hp. rewrite not_elem_of_cons in Hp. tauto. }
  destruct (err (lookup_entry r q f)) as [x|] eqn:Herr.
  - by apply IH.
  - assert (p <> q) as Hne.
    { intros ->. specialize (Hq eq_refl). unfold succeeds in Hq.
      by rewrite Herr in Hq. }
    rewrite IH; [by apply lookup_unlink_ne|].
    unfold deleted, succeeds. by rewrite lookup_unlink_ne.
Qed.

Lemma sweep_matching r pat ps f lg :
  matching r pat (fs (sweep err r ps (World f lg)))
  = filter (fun p => negb (deleted err r f ps p)) (matching r pat f).
Proof. unfold matching. rewrite sweep_listing. apply filter_comm. Qed.

Lemma sweep_folders r ps f lg :
  folders r (fs (sweep err r ps (World f lg)))
  = filter (fun p => negb (deleted err r f ps p)) (folders r f).
Proof.
  unfold folders. rewrite sweep_listing.
  rewrite (filter_comm _ (fun p => isdir_of r f p)).
  apply filter_ext_elem. intros p Hp.
  apply list_elem_of_filter in Hp as [Hp _].
  unfold isdir_of. rewrite sweep_lookup; [done|].
  by apply negb_prop_elim, Is_true_false in Hp.
Qed.

(** When every candidate can be deleted, exactly the candidates go. *)
Lemma deleted_candidates r f ps (qs : list string) :
  (forall p, p ∈ ps -> succeeds err r f p = true) ->
  filter (fun p => negb (deleted err r f ps p)) qs
  = filter (fun p => p ∉ ps) qs.
Proof.
  intros Hs. apply list_filter_iff. intros p. unfold deleted.
  destruct (decide (p ∈ ps)) as [Hp|Hp].
  - rewrite bool_decide_eq_true_2, Hs by done. simpl. tauto.
  - rewrite bool_decide_eq_false_2 by done. simpl. tauto.
Qed.
End Retained.

(** ** Order of the listing *)

Lemma precedes_app {A} (l1 l2 : list A) x y :
  x ∈ l1 -> y ∈ l2 -> precedes (l1 ++ l2) x y.
Proof.
  intros (a & b & ->)%list_elem_of_split (c & d & ->)%list_elem_of_split.
  exists a, (b ++ c), d. by rewrite <-!app_assoc.
Qed.

Lemma precedes_sublist {A} (l k : list A) x y :
  l `sublist_of` k -> precedes l x y -> precedes k x y.
Proof.
  intros Hsub (l1 & l2 & l3 & ->).
  apply sublist_app_l in Hsub as (k1 & k2 & -> & _ & Hsub).
  apply sublist_cons_l in Hsub as (k3 & k4 & -> & Hsub).
  apply sublist_app_l in Hsub as (k5 & k6 & -> & _ & Hsub).
  apply sublist_cons_l in Hsub as (k7 & k8 & -> & _).
  exists (k1 ++ k3), (k5 ++ k7), k8. by rewrite <-!app_assoc.
Qed.

(** Names of one key keep their listing order. *)
Lemma newest_first_stable key (c : Z) ps :
  filter (fun p => key p = c) (newest_first key ps)
  = filter (fun p => key p = c) ps.
Proof.
  rewrite <-newest_first_filter. unfold newest_first.
  induction ps as [|p ps IH]; [done|].
  rewrite filter_cons. destruct (decide (key p = c)) as [Hk|]; [|done].
  rewrite fmap_cons. simpl.
  rewrite insert_desc_front; simpl; [by f_equal|].
  apply Forall_forall. intros x Hx. rewrite sort_desc_perm in Hx.
  apply list_elem_of_fmap in Hx as (q & -> & Hq).
  apply list_elem_of_filter in Hq as [Hq _]. unfold ge_key. simpl. lia.
Qed.

(** A tie between a name sorted earlier and one sorted later was
    decided by the listing. *)
Lemma newest_first_tie key ps l1 l2 p q :
  newest_first key ps = l1 ++ l2 -> p ∈ l1 -> q ∈ l2 -> key p = key q ->
  precedes ps p q.
Proof.
  intros Heq Hp Hq Hk.
  apply (precedes_sublist (filter (fun x => key x = key q) ps)).
  { apply sublist_filter. }
  rewrite <-newest_first_stable, Heq, filter_app.
  apply precedes_app; apply list_elem_of_filter; auto.
Qed.

(** The names kept when the tail of the sorted list goes. *)
Lemma retained_spec key (k : nat) (ps : list string) :
  NoDup ps ->
  let sorted := newest_first key ps in
  let after := filter (fun p => p ∉ drop k sorted) ps in
  newest_first key after = take k sorted
  /\ length after = Nat.min (length ps) k
  /\ (forall p, p ∈ after <-> p ∈ take k sorted)
  /\ (forall p q, p ∈ after -> q ∈ ps -> q ∉ after ->
        key q <= key p /\ (key q = key p -> precedes ps p q)).
Proof.
  intros Hnd sorted after.
  assert (newest_first key after = take k sorted) as Hsorted.
  { unfold after. rewrite newest_first_filter.
    apply filter_not_in_drop. by apply NoDup_newest_first. }
  assert (after ≡ₚ take k sorted) as Hperm
    by (by rewrite <-Hsorted, newest_first_perm).
  split; [done|]. split.
  { rewrite Hperm, length_take. unfold sorted.
    rewrite length_newest_first. lia. }
  split; [intros p; by rewrite Hperm|].
  intros p q Hp Hq Hnq. rewrite Hperm in Hp.
  assert (q ∈ drop k sorted) as Hqd.
  { destruct (decide (q ∈ drop k sorted)) as [|Hn]; [done|].
    destruct Hnq. by apply list_elem_of_filter. }
  pose proof (eq_sym (take_drop k sorted)) as Hsplit.
  split.
  - by eapply newest_first_sorted.
  - intros Heq. eapply newest_first_tie; eauto.
Qed.

Lemma matching_lookup r pat f p :
  p ∈ matching r pat f -> exists e, e ∈ entries r f /\ name e = p.
Proof.
  intros [_ Hp]%list_elem_of_filter.
  apply list_elem_of_fmap in Hp as (e & -> & He). eauto.
Qed.

Lemma NoDup_matching r pat f : NoDup (listing r f) -> NoDup (matching r pat f).
Proof. apply NoDup_filter. Qed.

Lemma NoDup_folders r f : NoDup (listing r f) -> NoDup (folders r f).
Proof. apply NoDup_filter. Qed.

Lemma matching_absent r pat f : entries r f = [] -> matching r pat f = [].
Proof. unfold matching, listing. by intros ->. Qed.

Lemma candidates_nil key keep : candidates key keep [] = [].
Proof.
  unfold candidates, Py.slice_from, Py.len. simpl.
  destruct (Z.of_nat 0 >? keep), (0 <=? keep); try done; apply drop_nil.
Qed.

(** When every matched entry can be [stat]ed, the operation returns
    normally and has done one deletion loop. *)
Lemma retain_matching_returns r pat k f lg :
  forallb (stat_ok r f) (matching r pat f) = true ->
  exists lg',
    retain_matching r pat k (World f lg)
    = (inr tt, sweep remove_error r
                 (candidates (mtime_of r f)
                    (Py.or_default k REPORTING_SETTINGS.max_reports_to_keep)
                    (matching r pat f))
                 (World f lg')).
Proof.
  intros Hok. rewrite retain_matching_run.
  destruct (node_of r f) eqn:Hn; simpl; rewrite ?Hok; eauto.
  rewrite matching_absent, candidates_nil; [eauto|].
  unfold entries. by rewrite Hn.
Qed.

Lemma or_default_nonzero (n d : Z) : n <> 0 -> Py.or_default (Some n) d = n.
Proof. intros Hn. unfold Py.or_default. by destruct (Z.eqb_spec n 0). Qed.

(* ================================================================== *)
(** * Bounded retention of reports *)
(* ================================================================== *)

(** C1. Let the [*.html] entries of the reports directory be regular
    files, [M] of them, let [keep_count = k] be positive, and let no
    deletion fail. Then [cleanup_reports] returns normally, [min M k]
    html files remain, and they are the first [k] of the html files
    ordered by descending modification time with ties in listing order:
    no deleted file is newer than a kept one, and a deleted file as
    recent as a kept one came later in the listing. *)
Theorem cleanup_reports_bounded_retention
    (f : filesystem) (lg : list (level * message)) (k : Z) :
  NoDup (listing Reports f) ->
  (forall e, e ∈ entries Reports f -> glob_match "*.html" (name e) = true ->
     ekind e = RegularFile) ->
  (forall p,
     p ∈ candidates (mtime_of Reports f) k (matching Reports "*.html" f) ->
     succeeds remove_error Reports f p = true) ->
  0 < k ->
  exists w',
    cleanup_reports (Some k) (World f lg) = (inr tt, w')
    /\ let before := matching Reports "*.html" f in
       let after := matching Reports "*.html" (fs w') in
       let sorted := newest_first (mtime_of Reports f) before in
       length after = Nat.min (length before) (Z.to_nat k)
       /\ (forall p, p ∈ after <-> p ∈ take (Z.to_nat k) sorted)
       /\ (forall p q, p ∈ after -> q ∈ before -> q ∉ after ->
             mtime_of Reports f q <= mtime_of Reports f p
             /\ (mtime_of Reports f q = mtime_of Reports f p ->
                 precedes before p q)).
Proof.
  intros Hnd Hreg Hdel Hk.
  assert (forall p, p ∈ matching Reports "*.html" f ->
            stat_ok Reports f p = true) as Hfile.
  { intros p Hp. destruct (matching_lookup _ _ _ _ Hp) as (e & He & <-).
    apply list_elem_of_filter in Hp as [Hg _]. apply Is_true_true in Hg.
    unfold stat_ok, is_broken.
    by rewrite (lookup_entry_NoDup _ _ _ Hnd He), (Hreg e He Hg). }
  rewrite cleanup_reports_unfold.
  destruct (retain_matching_returns Reports "*.html" (Some k) f lg)
    as (lg' & ->).
  { apply forallb_forall. intros p Hp%list_elem_of_In. by apply Hfile. }
  eexists. split; [done|].
  rewrite or_default_nonzero by lia.
  rewrite sweep_matching, deleted_candidates by done.
  rewrite candidates_nonneg by lia.
  destruct (retained_spec (mtime_of Reports f) (Z.to_nat k)
              (matching Reports "*.html" f)) as (_ & Hlen & Hin & Hord).
  { by apply NoDup_matching. }
  simpl. split; [done|]. split; done.
Qed.

(* ================================================================== *)
(** * The [last_execution] strategy *)
(* ================================================================== *)

Lemma folders_lookup r f p :
  p ∈ folders r f ->
  exists e, lookup_entry r p f = Some e /\ is_directory e = true.
Proof.
  intros [Hd _]%list_elem_of_filter. apply Is_true_true in Hd.
  unfold isdir_of in Hd. destruct (lookup_entry r p f) as [e|]; [eauto|done].
Qed.

Lemma folders_entry r f e :
  NoDup (listing r f) -> e ∈ entries r f -> is_directory e = true ->
  name e ∈ folders r f.
Proof.
  intros Hnd He Hd. apply list_elem_of_filter. split.
  - unfold isdir_of. rewrite (lookup_entry_NoDup _ _ _ Hnd He).
    by apply Is_true_true.
  - apply list_elem_of_fmap. eauto.
Qed.

Lemma NoDup_fmap_elem {A B} (g : A -> B) (l : list A) x y :
  NoDup (g <$> l) -> x ∈ l -> y ∈ l -> g x = g y -> x = y.
Proof.
  induction l as [|a l IH]; intros Hnd Hx Hy Hg; [by apply elem_of_nil in Hx|].
  rewrite fmap_cons in Hnd. apply NoDup_cons in Hnd as [Ha Hnd].
  apply elem_of_cons in Hx as [->|Hx]; apply elem_of_cons in Hy as [->|Hy].
  - done.
  - destruct Ha. rewrite Hg. apply list_elem_of_fmap. eauto.
  - destruct Ha. rewrite <-Hg. apply list_elem_of_fmap. eauto.
  - by apply IH.
Qed.

(** C3. Let the screenshots root be a directory whose sub-directories
    have pairwise distinct creation times, let the cap [K] be positive,
    and let no deletion fail. Then the [last_execution] strategy returns
    normally, [min count K] folders remain, they are the first [K] in
    descending creation-time order (each kept folder is strictly newer
    than each deleted one), and every folder beyond index [K - 1] is gone
    from the directory. *)
Theorem last_execution_keeps_newest
    (tz : Z -> Z) (f : filesystem) (lg : list (level * message))
    (es : list entry) (K : Z) (rtm : option Z) :
  screenshots_node f = Dir es ->
  NoDup (name <$> es) ->
  NoDup (ctime_of Screenshots f <$> folders Screenshots f) ->
  (forall p,
     p ∈ candidates (ctime_of Screenshots f) K (folders Screenshots f) ->
     succeeds rmtree_error Screenshots f p = true) ->
  0 < K ->
  exists w',
    cleanup_screenshots tz "last_execution" (Some K) rtm (World f lg)
    = (inr tt, w')
    /\ let before := folders Screenshots f in
       let after := folders Screenshots (fs w') in
       let sorted := newest_first (ctime_of Screenshots f) before in
       length after = Nat.min (length before) (Z.to_nat K)
       /\ (forall p, p ∈ after <-> p ∈ take (Z.to_nat K) sorted)
       /\ (forall p, p ∈ drop (Z.to_nat K) sorted ->
             p ∉ listing Screenshots (fs w'))
       /\ (forall p q, p ∈ after -> q ∈ before -> q ∉ after ->
             ctime_of Screenshots f q < ctime_of Screenshots f p).
Proof.
  intros Hn Hnd Hdistinct Hdel HK.
  assert (entries Screenshots f = es) as Hes
    by (unfold entries; simpl; by rewrite Hn).
  assert (NoDup (listing Screenshots f)) as Hnd'
    by (unfold listing; by rewrite Hes).
  rewrite cleanup_screenshots_run, Hn. simpl.
  rewrite last_execution_run, Hn.
  eexists. split; [done|].
  rewrite or_default_nonzero by lia.
  rewrite sweep_folders, sweep_listing, !deleted_candidates by done.
  rewrite candidates_nonneg by lia.
  destruct (retained_spec (ctime_of Screenshots f) (Z.to_nat K)
              (folders Screenshots f)) as (_ & Hlen & Hin & Hord).
  { by apply NoDup_folders. }
  simpl. split; [done|]. split; [done|]. split.
  - intros p Hp [Hnp _]%list_elem_of_filter. by apply Hnp.
  - intros p q Hp Hq Hnq. destruct (Hord p q Hp Hq Hnq) as [Hle Htie].
    destruct (Z.eq_dec (ctime_of Screenshots f q) (ctime_of Screenshots f p))
      as [Heq|]; [|lia].
    destruct Hnq.
    assert (q = p) as ->; [|done].
    apply list_elem_of_filter in Hp as [_ Hp].
    by apply (NoDup_fmap_elem _ _ _ _ Hdistinct).
Qed.

(* ================================================================== *)
(** * Missing directories and unknown strategies *)
(* ================================================================== *)

(** C8. When the target root of an operation does not exist, the
    operation returns normally, leaves the file system as it is and logs
    one line, at informational level. *)
Theorem missing_directory_no_op
    (tz : Z -> Z) (rn ln sn : node) (lg : list (level * message))
    (k : option Z) (strategy : string) (ms rtm : option Z) :
  cleanup_reports k (World (FS Absent ln sn) lg)
  = (inr tt, World (FS Absent ln sn)
               (lg ++ [(INFO, DirectoryDoesNotExist Reports)]))
  /\ cleanup_logs k (World (FS rn Absent sn) lg)
     = (inr tt, World (FS rn Absent sn)
                  (lg ++ [(INFO, DirectoryDoesNotExist Logs)]))
  /\ cleanup_screenshots tz strategy ms rtm (World (FS rn ln Absent) lg)
     = (inr tt, World (FS rn ln Absent)
                  (lg ++ [(INFO, DirectoryDoesNotExist Screenshots)])).
Proof. done. Qed.

(** C7, as stated, fails where the screenshots root is missing: the
    existence check comes first, so an unknown strategy is then not
    reported at all. *)
Lemma unknown_strategy_unreported_without_root :
  String.eqb "newest_only" "match_reports" = false
  /\ String.eqb "newest_only" "last_execution" = false
  /\ forall m,
       (ERROR, m) ∉ log (cleanup_screenshots Demo.utc "newest_only" None None
                           (World Demo.nothing [])).2.
Proof.
  split; [done|]. split; [done|].
  intros m Hm. vm_compute in Hm.
  apply elem_of_cons in Hm as [Hm|Hm]; [done|by apply elem_of_nil in Hm].
Qed.

(** C7, amended. For a strategy other than the two known ones,
    [cleanup_screenshots] returns normally and leaves the file system as
    it is; it logs one error line naming the strategy when the
    screenshots root exists, and the informational line of the missing
    directory when it does not. *)
Theorem unknown_strategy_deletes_nothing
    (tz : Z -> Z) (strategy : string) (ms rtm : option Z)
    (f : filesystem) (lg : list (level * message)) :
  strategy <> "match_reports"%string ->
  strategy <> "last_execution"%string ->
  cleanup_screenshots tz strategy ms rtm (World f lg)
  = (inr tt,
     World f (lg ++ [match screenshots_node f with
                     | Absent => (INFO, DirectoryDoesNotExist Screenshots)
                     | _ => (ERROR, UnknownStrategy strategy)
                     end])).
Proof.
  intros H1%String.eqb_neq H2%String.eqb_neq.
  rewrite cleanup_screenshots_run, H1, H2.
  by destruct (screenshots_node f).
Qed.

Lemma unknown_strategy_deletes_nothing_witness :
  cleanup_screenshots Demo.utc "newest_only" (Some 1) (Some 1)
    (World Demo.disk [])
  = (inr tt, World Demo.disk [(ERROR, UnknownStrategy "newest_only")]).
Proof.
  apply (unknown_strategy_deletes_nothing Demo.utc "newest_only"
           (Some 1) (Some 1) Demo.disk []); discriminate.
Defined.

(* ================================================================== *)
(** * A retention count of zero *)
(* ================================================================== *)

(** C4 at the count 0. [max_reports or default] takes [0] for a missing
    argument, so each operation called with 0 behaves as called without a
    count; of the six reports of [Demo.disk] the five newest stay where
    the documented behaviour keeps none. *)
Theorem zero_count_substitutes_default :
  cleanup_reports (Some 0) = cleanup_reports None
  /\ cleanup_logs (Some 0) = cleanup_logs None
  /\ (forall tz strategy rtm,
        cleanup_screenshots tz strategy (Some 0) rtm
        = cleanup_screenshots tz strategy None rtm)
  /\ matching Reports "*.html"
       (fs (cleanup_reports (Some 0) (World Demo.disk [])).2)
     = [ "report_2024-01-15_10-30-02.html"; "reportfinal.html";
         "report_2024-01-15_10-30-04.html"; "report_2024-01-15_10-30-01.html";
         "report_2024-01-15_10-30-03.html" ]%string.
Proof. repeat split; vm_compute; reflexivity. Qed.

(* ================================================================== *)
(** * Strings *)
(* ================================================================== *)

Lemma append_nil (s : string) : ("" +:+ s)%string = s.
Proof. done. Qed.

Lemma append_cons (c : ascii) (s t : string) :
  (String c s +:+ t)%string = String c (s +:+ t).
Proof. done. Qed.

Lemma prefix_spec (n h : string) :
  String.prefix n h = true <-> exists b, h = (n +:+ b)%string.
Proof.
  revert h. induction n as [|c n IH]; intros h.
  - destruct h; simpl; (split; [eauto|done]).
  - destruct h as [|d h]; simpl.
    + split; [done|]. by intros [b Hb].
    + destruct (ascii_dec c d) as [->|Hne].
      * rewrite IH. split; intros [b Hb]; exists b;
          rewrite append_cons in *; congruence.
      * split; [done|]. intros [b Hb]. rewrite append_cons in Hb. congruence.
Qed.

Lemma contains_unfold (n h : string) :
  Py.contains n h
  = if String.prefix n h then true
    else match h with
         | EmptyString => false
         | String _ rest => Py.contains n rest
         end.
Proof. by destruct h. Qed.

(** [needle in hay] holds exactly of the substrings. *)
Lemma contains_spec (n h : string) :
  Py.contains n h = true <-> exists a b, h = (a +:+ n +:+ b)%string.
Proof.
  induction h as [|c h IH]; rewrite contains_unfold.
  - destruct (String.prefix n "") eqn:Hp.
    + apply prefix_spec in Hp as [b Hb]. split; [|done].
      intros _. exists ""%string, b. by rewrite append_nil.
    + split; [done|]. intros (a & b & Hab).
      destruct a; [|done]. rewrite append_nil in Hab.
      assert (String.prefix n "" = true) as Hp' by (apply prefix_spec; eauto).
      congruence.
  - destruct (String.prefix n (String c h)) eqn:Hp.
    + apply prefix_spec in Hp as [b Hb]. split; [|done].
      intros _. exists ""%string, b. by rewrite append_nil.
    + rewrite IH. split.
      * intros (a & b & ->). exists (String c a), b. by rewrite append_cons.
      * intros (a & b & Hab). destruct a as [|d a].
        -- rewrite append_nil in Hab.
           assert (String.prefix n (String c h) = true) as Hp'
             by (apply prefix_spec; eauto).
           congruence.
        -- rewrite append_cons in Hab. injection Hab as _ ->. eauto.
Qed.


Lemma split1_second_Some c s rest :
  Py.split1_second c s = Some rest <->
  exists a, s = (a +:+ String c rest)%string /\ Py.has_char c a = false.
Proof.
  revert rest. induction s as [|d s IH]; intros rest; simpl.
  - split; [done|]. intros (a & Ha & _). by destruct a.
  - destruct (Ascii.eqb_spec d c) as [->|Hne].
    + split.
      * intros [= ->]. exists ""%string. by rewrite append_nil.
      * intros (a & Ha & Hc). destruct a as [|x a].
        -- rewrite append_nil in Ha. congruence.
        -- rewrite append_cons in Ha. injection Ha as -> _.
           simpl in Hc. by rewrite Ascii.eqb_refl in Hc.
    + rewrite IH. split.
      * intros (a & -> & Hc). exists (String d a). rewrite append_cons.
        simpl. apply Ascii.eqb_neq in Hne. by rewrite Hne.
      * intros (a & Ha & Hc). destruct a as [|x a].
        -- rewrite append_nil in Ha. congruence.
        -- rewrite append_cons in Ha. injection Ha as -> ->.
           exists a. split; [done|]. simpl in Hc.
           by destruct (Ascii.eqb x c).
Qed.

(** [rsplit(".", 1)[0]] cuts at the last occurrence of the separator. *)
Lemma rsplit1_first_spec c s :
  if Py.has_char c s
  then exists b, s = (Py.rsplit1_first c s +:+ String c b)%string
                 /\ Py.has_char c b = false
  else Py.rsplit1_first c s = s.
Proof.
  induction s as [|a s IH]; simpl; [done|].
  destruct (Py.has_char c s) eqn:Hs.
  - destruct IH as (b & Hb & Hc).
    assert ((if Ascii.eqb a c then true else true) = true) as ->
      by by destruct (Ascii.eqb a c).
    exists b. rewrite append_cons. split; [by rewrite <-Hb|done].
  - destruct (Ascii.eqb_spec a c) as [->|Hne]; [|done].
    exists s. by rewrite append_nil.
Qed.

(* ================================================================== *)
(** * The [match_reports] strategy *)
(* ================================================================== *)

Lemma recent_reports_nonneg (n : Z) f :
  0 <= n ->
  recent_reports n f
  = take (Z.to_nat n)
      (newest_first (mtime_of Reports f) (matching Reports "*.html" f)).
Proof.
  intros Hn. unfold recent_reports, Py.slice_to.
  by destruct (Z.leb_spec 0 n); [|lia].
Qed.

Lemma match_found_spec (tokens : list string) (folder : string) :
  match_found tokens folder = true
  <-> exists t, t ∈ tokens /\ Py.contains t folder = true.
Proof.
  unfold match_found. rewrite existsb_exists.
  split; intros (t & Ht & Hc); exists t; split; try done;
    by apply list_elem_of_In.
Qed.

Lemma match_found_tokens tz n f (folder : string) :
  match_found (report_tokens tz n f) folder = true
  <-> exists r, r ∈ recent_reports n f
                /\ Py.contains (timestamp_token tz f r) folder = true.
Proof.
  rewrite match_found_spec. unfold report_tokens. split.
  - intros (t & Ht & Hc). apply list_elem_of_fmap in Ht as (r & -> & Hr). eauto.
  - intros (r & Hr & Hc). exists (timestamp_token tz f r). split; [|done].
    apply list_elem_of_fmap. eauto.
Qed.

Lemma elem_of_unmatched tz n f p :
  p ∈ unmatched tz n f
  <-> match_found (report_tokens tz n f) p = false /\ p ∈ folders Screenshots f.
Proof.
  unfold unmatched. rewrite list_elem_of_filter.
  by rewrite negb_True, Is_true_false.
Qed.




(* ================================================================== *)
(** * No reports at all *)
(* ================================================================== *)

(** C10, as stated, fails on a folder whose deletion fails: with no
    report there is no token, the folder is attempted and stays. *)
Lemma no_reports_locked_folder_stays :
  matching Reports "*.html" Demo.locked_folder = []
  /\ isdir_of Screenshots Demo.locked_folder "run_locked" = true
  /\ In "run_locked"%string
       (listing Screenshots
          (fs (cleanup_screenshots Demo.utc "match_reports" None None
                 (World Demo.locked_folder [])).2)).
Proof. vm_compute. auto. Qed.

Lemma slice_to_nil {A} (k : Z) : Py.slice_to k (@nil A) = [].
Proof. unfold Py.slice_to. destruct (0 <=? k); apply take_nil. Qed.

(** C10, amended. When the reports directory has no html file (it may
    not even exist) and the screenshots root is a directory, the token
    list is empty and the [match_reports] strategy attempts the recursive
    deletion of every sub-directory: those whose deletion succeeds are
    gone, the others stay and are reported in the log, and entries that
    are not directories are left alone. *)
Theorem no_reports_attempts_every_folder
    (tz : Z -> Z) (f : filesystem) (lg : list (level * message))
    (es : list entry) (ms rtm : option Z) :
  matching Reports "*.html" f = [] ->
  screenshots_node f = Dir es ->
  NoDup (name <$> es) ->
  let n := Py.or_default rtm REPORTING_SETTINGS.max_reports_to_keep in
  report_tokens tz n f = []
  /\ exists w',
       cleanup_screenshots tz "match_reports" ms rtm (World f lg)
       = (inr tt, w')
       /\ entries Screenshots (fs w')
          = filter (fun e => negb (is_directory e && removable e)) es
       /\ log w'
          = lg ++ (INFO, CleaningUpToMatch n)
               :: (outcome rmtree_error Screenshots f <$> folders Screenshots f).
Proof.
  intros Hnone Hn Hnd n.
  assert (entries Screenshots f = es) as Hes
    by (unfold entries; simpl; by rewrite Hn).
  assert (NoDup (listing Screenshots f)) as Hnd'
    by (unfold listing; by rewrite Hes).
  assert (report_tokens tz n f = []) as Htok.
  { unfold report_tokens, recent_reports. rewrite Hnone.
    unfold newest_first. simpl. by rewrite slice_to_nil. }
  assert (unmatched tz n f = folders Screenshots f) as Hun.
  { unfold unmatched. rewrite Htok. by apply filter_all. }
  split; [done|].
  rewrite cleanup_screenshots_run, Hn. simpl.
  rewrite match_reports_run, Hnone, Hn. simpl. fold n. rewrite Hun.
  eexists. split; [done|]. split.
  - rewrite sweep_entries. rewrite Hes.
    apply filter_ext_elem. intros e He.
    assert (lookup_entry Screenshots (name e) f = Some e) as Hl
      by (apply lookup_entry_NoDup; [done|by rewrite Hes]).
    unfold doomed, deleted, succeeds, rmtree_error. rewrite Hl.
    destruct (is_directory e) eqn:Hd.
    + rewrite bool_decide_eq_true_2
        by (apply folders_entry; [done|by rewrite Hes|done]).
      unfold is_directory in Hd. destruct (ekind e); try done.
      by destruct (removable e).
    + rewrite bool_decide_eq_false_2; [done|].
      intros Hf. destruct (folders_lookup _ _ _ Hf) as (e' & Hl' & Hd').
      congruence.
  - rewrite sweep_log_exact by (by apply NoDup_folders).
    by rewrite <-app_assoc.
Qed.

(* ================================================================== *)
(** * Idempotence of the report and log cleanup *)
(* ================================================================== *)

Lemma sweep_root_exists err r ps w :
  err None <> None ->
  root_exists r (fs (sweep err r ps w)) = root_exists r (fs w).
Proof.
  intros Hmiss. revert w. induction ps as [|p ps IH]; intros w; [done|].
  simpl. rewrite IH. unfold attempt.
  destruct (err (lookup_entry r p (fs w))) eqn:Herr; [done|]. simpl.
  unfold root_exists, unlink.
  assert (node_of r (set_node r (Dir (filter (fun e => negb (named p e))
                                        (entries r (fs w)))) (fs w))
          = Dir (filter (fun e => negb (named p e)) (entries r (fs w)))) as ->
    by by destruct r.
  unfold lookup_entry, entries in Herr.
  destruct (node_of r (fs w)); try done; simpl in Herr; by rewrite Herr in Hmiss.
Qed.

Lemma retain_matching_cases r pat k f lg :
  let keep := Py.or_default k REPORTING_SETTINGS.max_reports_to_keep in
  retain_matching r pat k (World f lg)
  = if root_exists r f then
      if forallb (stat_ok r f) (matching r pat f)
      then (inr tt, sweep remove_error r
                      (candidates (mtime_of r f) keep (matching r pat f))
                      (World f (lg ++ [(INFO, CleaningUpKeeping r keep)])))
      else (inl FileNotFoundError,
            World f (lg ++ [(INFO, CleaningUpKeeping r keep)]))
    else (inr tt, World f (lg ++ [(INFO, DirectoryDoesNotExist r)])).
Proof.
  intros keep. rewrite retain_matching_run. fold keep. unfold root_exists.
  by destruct (node_of r f).
Qed.

(** After a pass, the candidates of a second pass are the entries the
    first pass failed to delete: deleting them fails again. *)
Lemma second_pass_candidates err r f lg key (k : nat) ps :
  NoDup ps ->
  let cands := drop k (newest_first key ps) in
  let f1 := fs (sweep err r cands (World f lg)) in
  forall p,
    p ∈ drop k (newest_first key
                  (filter (fun p => negb (deleted err r f cands p)) ps)) ->
    succeeds err r f1 p = false.
Proof.
  intros Hnd cands f1 p Hp.
  assert (NoDup (newest_first key ps)) as Hnds by by apply NoDup_newest_first.
  rewrite newest_first_filter in Hp.
  assert (filter (fun p => negb (deleted err r f cands p)) (newest_first key ps)
          = take k (newest_first key ps)
            ++ filter (fun p => negb (deleted err r f cands p)) cands) as Heq.
  { rewrite <-(take_drop k (newest_first key ps)) at 1.
    rewrite filter_app. f_equal. apply filter_all. intros x Hx.
    unfold deleted. rewrite bool_decide_eq_false_2; [done|].
    rewrite <-(take_drop k (newest_first key ps)) in Hnds.
    apply NoDup_app in Hnds as (_ & Hdisj & _). by apply Hdisj. }
  rewrite Heq, drop_app in Hp. apply elem_of_app in Hp as [Hp|Hp].
  { rewrite drop_ge in Hp by (rewrite length_take; lia).
    by apply elem_of_nil in Hp. }
  apply subseteq_drop, list_elem_of_filter in Hp as [Hdel Hc].
  apply negb_prop_elim, Is_true_false in Hdel.
  unfold succeeds, f1. rewrite sweep_lookup by done.
  unfold deleted in Hdel. rewrite bool_decide_eq_true_2 in Hdel by done.
  done.
Qed.

Lemma outcome_failure err r f p :
  succeeds err r f p = false -> (outcome err r f p).1 = ERROR.
Proof. unfold succeeds, outcome. by destruct (err (lookup_entry r p f)). Qed.

Lemma or_default_pos (k : option Z) (d : Z) :
  0 < d -> (forall n, k = Some n -> 0 <= n) -> 0 < Py.or_default k d.
Proof.
  intros Hd Hk. destruct k as [n|]; simpl; [|done].
  specialize (Hk n eq_refl). destruct (Z.eqb_spec n 0); lia.
Qed.

Lemma retain_matching_idempotent r pat k f lg res w1 :
  NoDup (listing r f) ->
  (forall n, k = Some n -> 0 <= n) ->
  retain_matching r pat k (World f lg) = (res, w1) ->
  exists extra,
    retain_matching r pat k w1 = (res, World (fs w1) (log w1 ++ extra))
    /\ forall p, (INFO, DeletedOld r p) ∉ extra.
Proof.
  intros Hnd Hk Hrun.
  pose proof (or_default_pos k REPORTING_SETTINGS.max_reports_to_keep
                eq_refl Hk) as Hkeep.
  rewrite retain_matching_cases in Hrun.
  set (keep := Py.or_default k REPORTING_SETTINGS.max_reports_to_keep) in *.
  set (line := (INFO, CleaningUpKeeping r keep)) in *.
  destruct (root_exists r f) eqn:Hex; cycle 1.
  { injection Hrun as <- <-. simpl. rewrite retain_matching_cases, Hex.
    eexists [_]. split; [done|].
    intros p [?|?%elem_of_nil]%elem_of_cons; done. }
  destruct (forallb (stat_ok r f) (matching r pat f)) eqn:Hok; cycle 1.
  { injection Hrun as <- <-. simpl. rewrite retain_matching_cases, Hex, Hok.
    eexists [_]. split; [done|].
    intros p [?|?%elem_of_nil]%elem_of_cons; done. }
  injection Hrun as <- <-.
  rewrite candidates_nonneg by lia.
  set (cands := drop (Z.to_nat keep)
                  (newest_first (mtime_of r f) (matching r pat f))).
  set (w1 := sweep remove_error r cands (World f (lg ++ [line]))).
  assert (forall p, p ∈ matching r pat (fs w1) ->
            lookup_entry r p (fs w1) = lookup_entry r p f) as Hsame.
  { intros p Hp. unfold w1 in *.
    rewrite sweep_matching in Hp.
    apply list_elem_of_filter in Hp as [Hp _].
    apply sweep_lookup.
    by apply negb_prop_elim, Is_true_false in Hp. }
  assert (forallb (stat_ok r (fs w1)) (matching r pat (fs w1)) = true) as Hok1.
  { apply forallb_forall. intros p Hp%list_elem_of_In.
    unfold stat_ok. rewrite (Hsame p Hp).
    rewrite forallb_forall in Hok. apply Hok, list_elem_of_In.
    unfold w1 in Hp. rewrite sweep_matching in Hp.
    by apply list_elem_of_filter in Hp as [_ Hp]. }
  assert (newest_first (mtime_of r (fs w1)) (matching r pat (fs w1))
          = newest_first (mtime_of r f) (matching r pat (fs w1))) as Hkeys.
  { apply newest_first_ext. intros p Hp.
    unfold mtime_of, attr_of. by rewrite (Hsame p Hp). }
  destruct w1 as [f1 lg1] eqn:Ew1. simpl in *.
  rewrite retain_matching_cases. fold keep. fold line.
  assert (root_exists r f1 = true) as ->.
  { change f1 with (fs (World f1 lg1)). rewrite <-Ew1. unfold w1.
    rewrite sweep_root_exists by apply remove_error_missing. done. }
  rewrite Hok1, candidates_nonneg, Hkeys by lia.
  assert (matching r pat f1
          = filter (fun p => negb (deleted remove_error r f cands p))
              (matching r pat f)) as ->.
  { change f1 with (fs (World f1 lg1)). rewrite <-Ew1. unfold w1.
    apply sweep_matching. }
  pose proof (second_pass_candidates remove_error r f (lg ++ [line])
                (mtime_of r f) (Z.to_nat keep) (matching r pat f)
                (NoDup_matching _ _ _ Hnd)) as Hfail.
  simpl in Hfail. fold cands in Hfail. fold w1 in Hfail.
  rewrite Ew1 in Hfail. simpl in Hfail.
  rewrite sweep_all_fail by done.
  eexists (_ :: _). rewrite <-app_assoc. split; [done|].
  intros p [Hp|Hp]%elem_of_cons; [done|].
  apply list_elem_of_fmap in Hp as (q & Hq & Hin).
  pose proof (outcome_failure _ _ _ _ (Hfail q Hin)) as He.
  rewrite <-Hq in He. done.
Qed.

(** C5. Running [cleanup_reports], or [cleanup_logs], a second time
    with the same count (none, or a count that is not negative) on what
    the first run left ends as the first run did, leaves the file system
    as the first run left it, and logs no deletion. *)
Theorem cleanup_twice_same_as_once
    (f : filesystem) (lg : list (level * message)) (k : option Z) :
  NoDup (listing Reports f) ->
  NoDup (listing Logs f) ->
  (forall n, k = Some n -> 0 <= n) ->
  (forall res w1,
     cleanup_reports k (World f lg) = (res, w1) ->
     exists extra,
       cleanup_reports k w1 = (res, World (fs w1) (log w1 ++ extra))
       /\ forall p, (INFO, DeletedOld Reports p) ∉ extra)
  /\ (forall res w1,
        cleanup_logs k (World f lg) = (res, w1) ->
        exists extra,
          cleanup_logs k w1 = (res, World (fs w1) (log w1 ++ extra))
          /\ forall p, (INFO, DeletedOld Logs p) ∉ extra).
Proof.
  intros Hr Hl Hk. split; intros res w1.
  - rewrite cleanup_reports_unfold. by apply retain_matching_idempotent.
  - rewrite cleanup_logs_unfold. by apply retain_matching_idempotent.
Qed.

(* ================================================================== *)
(** * Failures *)
(* ================================================================== *)


Lemma folders_absent r f : entries r f = [] -> folders r f = [].
Proof. unfold folders, listing. by intros ->. Qed.

(** A readable operation is one deletion loop over its eligible
    entries, after one line of log. *)
Lemma run_as_sweep tz op f lg :
  readable op f = true ->
  exists line,
    run tz op (World f lg)
    = (inr tt, sweep (deletion_error op) (target op) (eligible tz op f)
                 (World f (lg ++ [line]))).
Proof.
  intros Hread. destruct op as [k|k|s ms rtm]; simpl in *.
  - rewrite cleanup_reports_unfold, retain_matching_cases, Hread.
    unfold root_exists. destruct (node_of Reports f) eqn:Hn; eauto.
    rewrite matching_absent, candidates_nil; [eauto|].
    unfold entries. by rewrite Hn.
  - rewrite cleanup_logs_unfold, retain_matching_cases, Hread.
    unfold root_exists. destruct (node_of Logs f) eqn:Hn; eauto.
    rewrite matching_absent, candidates_nil; [eauto|].
    unfold entries. by rewrite Hn.
  - rewrite cleanup_screenshots_run.
    destruct (screenshots_node f) as [| |es] eqn:Hn.
    + assert (entries Screenshots f = []) as He
        by (unfold entries; simpl; by rewrite Hn).
      unfold unmatched. rewrite (folders_absent _ _ He), candidates_nil.
      destruct (String.eqb s "match_reports"), (String.eqb s "last_execution");
        simpl; eauto.
    + destruct (String.eqb s "match_reports"), (String.eqb s "last_execution");
        simpl in *; try done; eauto.
    + destruct (String.eqb s "match_reports").
      * rewrite match_reports_run, Hread, Hn. eauto.
      * destruct (String.eqb s "last_execution"); [|simpl; eauto].
        rewrite last_execution_run, Hn. eauto.
Qed.

(** An operation that is not readable raises, and has deleted nothing. *)
Lemma unreadable_raises tz op f lg :
  readable op f = false ->
  exists e lg', run tz op (World f lg) = (inl e, World f lg').
Proof.
  intros Hread. destruct op as [k|k|s ms rtm]; simpl in *.
  - rewrite cleanup_reports_unfold, retain_matching_cases, Hread.
    destruct (root_exists Reports f) eqn:Hex; [eauto|].
    rewrite matching_absent in Hread; [done|].
    unfold root_exists in Hex. unfold entries.
    by destruct (node_of Reports f).
  - rewrite cleanup_logs_unfold, retain_matching_cases, Hread.
    destruct (root_exists Logs f) eqn:Hex; [eauto|].
    rewrite matching_absent in Hread; [done|].
    unfold root_exists in Hex. unfold entries.
    by destruct (node_of Logs f).
  - rewrite cleanup_screenshots_run.
    destruct (screenshots_node f) as [| |es] eqn:Hn; [done| |].
    + destruct (String.eqb s "match_reports").
      * rewrite match_reports_run, Hn.
        destruct (forallb (stat_ok Reports f) (matching Reports "*.html" f));
          eauto.
      * destruct (String.eqb s "last_execution"); [|done].
        rewrite last_execution_run, Hn. eauto.
    + destruct (String.eqb s "match_reports"); [|done].
      rewrite match_reports_run, Hread. eauto.
Qed.


(* ================================================================== *)
(** * The theorems at work on the sample file systems *)
(* ================================================================== *)

Lemma cleanup_reports_bounded_retention_witness :
  exists w',
    cleanup_reports (Some 2) (World Demo.disk []) = (inr tt, w')
    /\ length (matching Reports "*.html" (fs w')) = 2%nat.
Proof.
  destruct (cleanup_reports_bounded_retention Demo.disk [] 2)
    as (w' & Hrun & Hlen & _).
  - apply (bool_decide_unpack _). by vm_compute.
  - intros e He _. vm_compute in He.
    repeat (apply elem_of_cons in He as [->|He]; [done|]).
    by apply elem_of_nil in He.
  - intros p Hp. vm_compute in Hp.
    repeat (apply elem_of_cons in Hp as [->|Hp]; [done|]).
    by apply elem_of_nil in Hp.
  - lia.
  - exists w'. split; [exact Hrun|exact Hlen].
Defined.

Lemma last_execution_keeps_newest_witness :
  exists w',
    cleanup_screenshots Demo.utc "last_execution" (Some 2) None
      (World Demo.disk []) = (inr tt, w')
    /\ length (folders Screenshots (fs w')) = 2%nat.
Proof.
  destruct (last_execution_keeps_newest Demo.utc Demo.disk []
              Demo.four_folders 2 None) as (w' & Hrun & Hlen & _).
  - reflexivity.
  - apply (bool_decide_unpack _). by vm_compute.
  - apply (bool_decide_unpack _). by vm_compute.
  - intros p Hp. vm_compute in Hp.
    repeat (apply elem_of_cons in Hp as [->|Hp]; [done|]).
    by apply elem_of_nil in Hp.
  - lia.
  - exists w'. split; [exact Hrun|exact Hlen].
Defined.



Lemma no_reports_attempts_every_folder_witness :
  exists w',
    cleanup_screenshots Demo.utc "match_reports" None None
      (World Demo.locked_folder []) = (inr tt, w')
    /\ entries Screenshots (fs w')
       = [Entry "run_locked" Directory 5 5 false].
Proof.
  destruct (no_reports_attempts_every_folder Demo.utc Demo.locked_folder []
              [Entry "run_locked" Directory 5 5 false; Demo.folder "run_free" 6]
              None None) as (_ & w' & Hrun & Hent & _).
  - reflexivity.
  - reflexivity.
  - apply (bool_decide_unpack _). by vm_compute.
  - exists w'. split; [exact Hrun|exact Hent].
Defined.

Lemma cleanup_twice_same_as_once_witness :
  exists extra,
    cleanup_reports (Some 2)
      (cleanup_reports (Some 2) (World Demo.disk [])).2
    = (inr tt,
       World (fs (cleanup_reports (Some 2) (World Demo.disk [])).2)
             (log (cleanup_reports (Some 2) (World Demo.disk [])).2 ++ extra)).
Proof.
  destruct (cleanup_twice_same_as_once Demo.disk [] (Some 2)) as [Hrep _].
  - apply (bool_decide_unpack _). by vm_compute.
  - apply (bool_decide_unpack _). by vm_compute.
  - intros n [= <-]. lia.
  - destruct (Hrep (inr tt) (cleanup_reports (Some 2) (World Demo.disk [])).2)
      as (extra & Hrun & _).
    + reflexivity.
    + exists extra. exact Hrun.
Defined.


(* ================================================================== *)
(** * What the operations never do *)
(* ================================================================== *)

Lemma eligible_subseteq tz op f p :
  p ∈ eligible tz op f ->
  match op with
  | CleanReports _ => p ∈ matching Reports "*.html" f
  | CleanLogs _ => p ∈ matching Logs "test_execution_*.log" f
  | CleanScreenshots _ _ _ => p ∈ folders Screenshots f
  end.
Proof.
  assert (forall key keep ps, p ∈ candidates key keep ps -> p ∈ ps) as Hc.
  { intros key keep ps. unfold candidates. simpl.
    destruct (Py.len (newest_first key ps) >? keep); [|by intros ?%elem_of_nil].
    intros Hp%slice_from_subseteq. by apply elem_of_newest_first in Hp. }
  destruct op as [k|k|s ms rtm]; simpl; try apply Hc.
  destruct (String.eqb s "match_reports").
  - by intros [_ Hp]%elem_of_unmatched.
  - destruct (String.eqb s "last_execution"); [apply Hc|by intros ?%elem_of_nil].
Qed.

(** The entries of the target root after a run, whatever its outcome. *)
Lemma run_entries tz op f lg :
  entries (target op) (fs (run tz op (World f lg)).2)
  = if readable op f
    then filter (fun e => negb (doomed (deletion_error op) (target op) f
                                  (eligible tz op f) e))
           (entries (target op) f)
    else entries (target op) f.
Proof.
  destruct (readable op f) eqn:Hread.
  - destruct (run_as_sweep tz op f lg Hread) as (line & ->). simpl.
    apply sweep_entries.
  - by destruct (unreadable_raises tz op f lg Hread) as (e & lg' & ->).
Qed.

(** X1. A cleanup operation changes nothing outside the root it
    cleans, and inside that root it only removes entries: what is listed
    afterwards is a sub-list of what was listed before, whether the run
    returns or raises. *)
Theorem cleanup_only_removes_from_its_root
    (tz : Z -> Z) (op : operation) (f : filesystem)
    (lg : list (level * message)) :
  (forall r, r <> target op ->
     node_of r (fs (run tz op (World f lg)).2) = node_of r f)
  /\ entries (target op) (fs (run tz op (World f lg)).2)
     `sublist_of` entries (target op) f.
Proof.
  split.
  - intros r Hr. destruct (readable op f) eqn:Hread.
    + destruct (run_as_sweep tz op f lg Hread) as (line & ->). simpl.
      by apply sweep_other_roots.
    + by destruct (unreadable_raises tz op f lg Hread) as (e & lg' & ->).
  - rewrite run_entries. destruct (readable op f); [apply sublist_filter|done].
Qed.

Lemma cleanup_only_removes_from_its_root_witness :
  node_of Logs
    (fs (run Demo.utc (CleanReports (Some 2)) (World Demo.disk [])).2)
  = node_of Logs Demo.disk
  /\ entries Reports
       (fs (run Demo.utc (CleanReports (Some 2)) (World Demo.disk [])).2)
     `sublist_of` entries Reports Demo.disk.
Proof.
  destruct (cleanup_only_removes_from_its_root Demo.utc
              (CleanReports (Some 2)) Demo.disk []) as [Hother Hsub].
  split; [apply Hother; discriminate|exact Hsub].
Defined.

(** An entry whose name is not selected stays. *)
Lemma unselected_stays tz op f lg e :
  e ∈ entries (target op) f -> name e ∉ eligible tz op f ->
  e ∈ entries (target op) (fs (run tz op (World f lg)).2).
Proof.
  intros He Hn. rewrite run_entries. destruct (readable op f); [|done].
  apply list_elem_of_filter. split; [|done].
  unfold doomed, deleted. by rewrite bool_decide_eq_false_2.
Qed.

(** X2. Whatever the arguments and the outcome, [cleanup_reports]
    never deletes an entry whose name does not match [*.html],
    [cleanup_logs] never deletes one whose name does not match
    [test_execution_*.log], and [cleanup_screenshots] never deletes an
    entry that is not a directory. *)
Theorem other_entries_are_never_deleted
    (tz : Z -> Z) (f : filesystem) (lg : list (level * message))
    (k : option Z) (strategy : string) (ms rtm : option Z) (e : entry) :
  (e ∈ entries Reports f -> glob_match "*.html" (name e) = false ->
   e ∈ entries Reports (fs (cleanup_reports k (World f lg)).2))
  /\ (e ∈ entries Logs f -> glob_match "test_execution_*.log" (name e) = false ->
      e ∈ entries Logs (fs (cleanup_logs k (World f lg)).2))
  /\ (e ∈ entries Screenshots f -> isdir_of Screenshots f (name e) = false ->
      e ∈ entries Screenshots
          (fs (cleanup_screenshots tz strategy ms rtm (World f lg)).2)).
Proof.
  split; [|split]; intros He Hno.
  - apply (unselected_stays tz (CleanReports k)); [done|].
    intros [Hg _]%eligible_subseteq%list_elem_of_filter.
    apply Is_true_true in Hg. congruence.
  - apply (unselected_stays tz (CleanLogs k)); [done|].
    intros [Hg _]%eligible_subseteq%list_elem_of_filter.
    apply Is_true_true in Hg. congruence.
  - apply (unselected_stays tz (CleanScreenshots strategy ms rtm)); [done|].
    intros [Hg _]%eligible_subseteq%list_elem_of_filter.
    apply Is_true_true in Hg. congruence.
Qed.

Lemma other_entries_are_never_deleted_witness :
  Demo.file "notes.txt" 1705314609000000
  ∈ entries Reports (fs (cleanup_reports (Some 1) (World Demo.disk [])).2)
  /\ Demo.file "index.txt" 1705314600000000
     ∈ entries Screenshots
         (fs (cleanup_screenshots Demo.utc "last_execution" (Some 1) None
                (World Demo.disk [])).2).
Proof.
  split.
  - apply (other_entries_are_never_deleted Demo.utc Demo.disk [] (Some 1)
             "last_execution" (Some 1) None
             (Demo.file "notes.txt" 1705314609000000)).
    + vm_compute. do 6 right. left.
    + reflexivity.
  - apply (other_entries_are_never_deleted Demo.utc Demo.disk [] (Some 1)
             "last_execution" (Some 1) None
             (Demo.file "index.txt" 1705314600000000)).
    + vm_compute. do 4 right. left.
    + reflexivity.
Defined.

(* ================================================================== *)
(** * Retention by count, in general *)
(* ================================================================== *)

Lemma string_eqb_known (s : string) :
  String.eqb s "last_execution" = true -> String.eqb s "match_reports" = false.
Proof. intros ->%String.eqb_eq. done. Qed.

(** What a retention by count selects, by the effective count. *)
Lemma eligible_retention tz op f c :
  count_of op = Some c ->
  exists d, 0 < d
    /\ eligible tz op f
       = candidates (sort_key op f) (Py.or_default c d) (pool op f).
Proof.
  destruct op as [k|k|s ms rtm]; simpl.
  - intros [= <-]. by exists REPORTING_SETTINGS.max_reports_to_keep.
  - intros [= <-]. by exists REPORTING_SETTINGS.max_reports_to_keep.
  - destruct (String.eqb s "last_execution") eqn:Hs; [|done].
    intros [= <-]. rewrite (string_eqb_known _ Hs).
    by exists SCREENSHOT_SETTINGS.max_screenshots_to_keep.
Qed.

Lemma pool_after_sweep op ps f lg :
  pool op (fs (sweep (deletion_error op) (target op) ps (World f lg)))
  = filter (fun p => negb (deleted (deletion_error op) (target op) f ps p))
      (pool op f).
Proof.
  destruct op; simpl; [apply sweep_matching..|apply sweep_folders].
Qed.

Lemma NoDup_pool op f : NoDup (listing (target op) f) -> NoDup (pool op f).
Proof. destruct op; apply NoDup_filter. Qed.

Lemma elem_of_take_drop {A} (k : nat) (l : list A) x :
  x ∈ l <-> x ∈ take k l \/ x ∈ drop k l.
Proof. by rewrite <-elem_of_app, take_drop. Qed.

Lemma take_drop_disjoint {A} (k : nat) (l : list A) x :
  NoDup l -> x ∈ take k l -> x ∉ drop k l.
Proof.
  intros Hnd. rewrite <-(take_drop k l) in Hnd.
  apply NoDup_app in Hnd as (_ & Hdisj & _). apply Hdisj.
Qed.

(** After the tail of the sorted names was swept, the names left are
    the head and the names of the tail whose deletion failed. *)
Lemma sweep_survivors err r f key (k : nat) ps p :
  NoDup ps ->
  p ∈ filter (fun p => negb (deleted err r f (drop k (newest_first key ps)) p)) ps
  <-> survivor err r f key k ps p.
Proof.
  intros Hnd. pose proof (NoDup_newest_first key ps Hnd) as Hnds.
  rewrite list_elem_of_filter, negb_True, Is_true_false.
  unfold survivor, deleted. split.
  - intros [Hdel Hp]. apply (elem_of_newest_first key) in Hp.
    apply (elem_of_take_drop k) in Hp as [Hp|Hp]; [by left|right].
    rewrite bool_decide_eq_true_2 in Hdel by done. done.
  - intros [Hp|[Hp Hs]].
    + split; [|by eapply elem_of_newest_first, subseteq_take].
      rewrite bool_decide_eq_false_2; [done|]. by apply take_drop_disjoint.
    + split; [by rewrite Hs, andb_false_r|].
      by eapply elem_of_newest_first, subseteq_drop.
Qed.

(** X3. For each retention by count ([cleanup_reports],
    [cleanup_logs], the [last_execution] strategy) with a positive count
    [k], whether deletions fail or not: the names that remain of those
    the operation chooses among are exactly the first [k] in descending
    order of the time stamp, and the later ones whose deletion failed.
    In particular none of the [k] newest is ever deleted. *)
Theorem retention_leaves_newest_and_undeletable
    (tz : Z -> Z) (op : operation) (f : filesystem)
    (lg : list (level * message)) (k : Z) :
  count_of op = Some (Some k) ->
  0 < k ->
  NoDup (listing (target op) f) ->
  readable op f = true ->
  exists w',
    run tz op (World f lg) = (inr tt, w')
    /\ forall p,
         p ∈ pool op (fs w')
         <-> survivor (deletion_error op) (target op) f (sort_key op f)
               (Z.to_nat k) (pool op f) p.
Proof.
  intros Hc Hk Hnd Hread.
  destruct (run_as_sweep tz op f lg Hread) as (line & ->).
  eexists. split; [done|]. intros p.
  destruct (eligible_retention tz op f _ Hc) as (d & Hd & ->).
  rewrite or_default_nonzero, candidates_nonneg by lia.
  rewrite pool_after_sweep. apply sweep_survivors. by apply NoDup_pool.
Qed.

Lemma retention_leaves_newest_and_undeletable_witness :
  exists w',
    run Demo.utc (CleanScreenshots "last_execution" (Some 1) None)
      (World Demo.locked_folder []) = (inr tt, w')
    /\ "run_locked"%string ∈ folders Screenshots (fs w').
Proof.
  destruct (retention_leaves_newest_and_undeletable Demo.utc
              (CleanScreenshots "last_execution" (Some 1) None)
              Demo.locked_folder [] 1) as (w' & Hrun & Hleft).
  - reflexivity.
  - lia.
  - apply (bool_decide_unpack _). by vm_compute.
  - reflexivity.
  - exists w'. split; [exact Hrun|].
    apply Hleft. right. split; [|reflexivity]. vm_compute. left.
Defined.

Lemma candidates_negative key (keep : Z) ps :
  keep < 0 ->
  candidates key keep ps
  = drop (Z.to_nat (Z.of_nat (length ps) + keep)) (newest_first key ps).
Proof.
  intros Hk. unfold candidates, Py.len, Py.slice_from. simpl.
  destruct (Z.gtb_spec (Z.of_nat (length (newest_first key ps))) keep); [|lia].
  destruct (Z.leb_spec 0 keep); [lia|]. by rewrite length_newest_first.
Qed.

(** X4. A negative count [-n] is taken as a slice index: the
    retention deletes the [n] oldest names (all of them when there are
    fewer) and keeps the rest, here when no deletion fails. *)
Theorem negative_count_deletes_the_oldest
    (tz : Z -> Z) (op : operation) (f : filesystem)
    (lg : list (level * message)) (k : Z) :
  count_of op = Some (Some k) ->
  k < 0 ->
  NoDup (listing (target op) f) ->
  readable op f = true ->
  (forall p, p ∈ eligible tz op f ->
     succeeds (deletion_error op) (target op) f p = true) ->
  exists w',
    run tz op (World f lg) = (inr tt, w')
    /\ let sorted := newest_first (sort_key op f) (pool op f) in
       let kept := Z.to_nat (Z.of_nat (length (pool op f)) + k) in
       (forall p, p ∈ pool op (fs w') <-> p ∈ take kept sorted)
       /\ length (pool op (fs w')) = kept.
Proof.
  intros Hc Hk Hnd Hread Hdel.
  destruct (run_as_sweep tz op f lg Hread) as (line & ->).
  eexists. split; [done|].
  rewrite pool_after_sweep, deleted_candidates by done.
  destruct (eligible_retention tz op f _ Hc) as (d & Hd & ->).
  rewrite or_default_nonzero, candidates_negative by lia.
  destruct (retained_spec (sort_key op f)
              (Z.to_nat (Z.of_nat (length (pool op f)) + k)) (pool op f))
    as (_ & Hlen & Hin & _); [by apply NoDup_pool|].
  simpl. split; [done|]. rewrite Hlen. lia.
Qed.

Lemma negative_count_deletes_the_oldest_witness :
  exists w',
    run Demo.utc (CleanReports (Some (-2))) (World Demo.disk [])
    = (inr tt, w')
    /\ length (matching Reports "*.html" (fs w')) = 4%nat.
Proof.
  destruct (negative_count_deletes_the_oldest Demo.utc
              (CleanReports (Some (-2))) Demo.disk [] (-2))
    as (w' & Hrun & _ & Hlen).
  - reflexivity.
  - lia.
  - apply (bool_decide_unpack _). by vm_compute.
  - reflexivity.
  - intros p Hp. vm_compute in Hp.
    repeat (apply elem_of_cons in Hp as [->|Hp]; [done|]).
    by apply elem_of_nil in Hp.
  - exists w'. split; [exact Hrun|exact Hlen].
Defined.

(** X5. A retention whose positive count is not smaller than the
    number of names it chooses among deletes nothing: it returns
    normally, the file system is as before, and the log has one more
    line. No deletion is attempted, so none can fail. *)
Theorem large_count_changes_nothing
    (tz : Z -> Z) (op : operation) (f : filesystem)
    (lg : list (level * message)) (k : Z) :
  count_of op = Some (Some k) ->
  0 < k ->
  Z.of_nat (length (pool op f)) <= k ->
  readable op f = true ->
  exists line, run tz op (World f lg) = (inr tt, World f (lg ++ [line])).
Proof.
  intros Hc Hk Hlen Hread.
  destruct (run_as_sweep tz op f lg Hread) as (line & ->).
  exists line.
  destruct (eligible_retention tz op f _ Hc) as (d & Hd & ->).
  rewrite or_default_nonzero, candidates_nonneg by lia.
  rewrite drop_ge; [done|]. rewrite length_newest_first. lia.
Qed.

Lemma large_count_changes_nothing_witness :
  exists line,
    run Demo.utc (CleanLogs (Some 3)) (World Demo.disk [])
    = (inr tt, World Demo.disk ([] ++ [line])).
Proof.
  apply (large_count_changes_nothing Demo.utc (CleanLogs (Some 3))
           Demo.disk [] 3).
  - reflexivity.
  - lia.
  - vm_compute. discriminate.
  - reflexivity.
Defined.

(* ================================================================== *)
(** * Tokens and names *)
(* ================================================================== *)

Lemma has_char_app c (s t : string) :
  Py.has_char c (s +:+ t) = Py.has_char c s || Py.has_char c t.
Proof.
  induction s as [|a s IH]; [done|].
  rewrite append_cons. simpl. by destruct (Ascii.eqb a c).
Qed.

Lemma rsplit1_first_app c (t ext : string) :
  Py.has_char c ext = false ->
  Py.rsplit1_first c (t +:+ String c ext) = t.
Proof.
  intros Hext. induction t as [|a t IH].
  - rewrite append_nil. simpl. by rewrite Hext, Ascii.eqb_refl.
  - rewrite append_cons. simpl. rewrite has_char_app. simpl.
    by rewrite Ascii.eqb_refl, orb_true_r, IH.
Qed.

(** A name with an underscore: the token is cut from what follows the
    first one. *)
Lemma timestamp_token_underscore tz f (prefix rest : string) :
  Py.has_char "_" prefix = false ->
  timestamp_token tz f (prefix +:+ "_" +:+ rest) = Py.rsplit1_first "." rest.
Proof.
  intros Hp. unfold timestamp_token.
  assert (Py.split1_second "_" (prefix +:+ "_" +:+ rest) = Some rest) as ->.
  { apply split1_second_Some. by exists prefix. }
  done.
Qed.

(** X6. Token extraction inverts the naming convention
    [<prefix>_<stamp>.<ext>]: when the prefix has no underscore and the
    extension no dot, the token of the report is the stamp, whatever
    underscores and dots the stamp itself contains. *)
Theorem token_inverts_report_name
    (tz : Z -> Z) (f : filesystem) (prefix stamp ext : string) :
  Py.has_char "_" prefix = false ->
  Py.has_char "." ext = false ->
  timestamp_token tz f (prefix +:+ "_" +:+ stamp +:+ "." +:+ ext) = stamp.
Proof.
  intros Hp He. rewrite timestamp_token_underscore by done.
  by apply rsplit1_first_app.
Qed.

Lemma token_inverts_report_name_witness :
  timestamp_token Demo.utc Demo.disk
    ("report" +:+ "_" +:+ "2024-01-15_10.30" +:+ "." +:+ "html")
  = "2024-01-15_10.30"%string.
Proof. by apply token_inverts_report_name. Defined.

Lemma recent_reports_mono (n n' : Z) f r :
  0 <= n -> n <= n' -> r ∈ recent_reports n f -> r ∈ recent_reports n' f.
Proof.
  intros Hn Hle. rewrite !recent_reports_nonneg by lia.
  rewrite !elem_of_take. intros (i & Hi & Hlt). exists i. split; [done|lia].
Qed.

(** X7. A wider window of the [match_reports] strategy keeps at least
    as much: an entry of the screenshots root that is still there after a
    run with window [N] is also there after a run with a window
    [N' >= N] from the same file system. *)
Theorem wider_window_keeps_more
    (tz : Z -> Z) (f : filesystem) (lg : list (level * message))
    (N N' : Z) (ms : option Z) (e : entry) :
  0 < N -> N <= N' ->
  e ∈ entries Screenshots
        (fs (cleanup_screenshots tz "match_reports" ms (Some N) (World f lg)).2) ->
  e ∈ entries Screenshots
        (fs (cleanup_screenshots tz "match_reports" ms (Some N') (World f lg)).2).
Proof.
  intros HN Hle.
  pose proof (run_entries tz (CleanScreenshots "match_reports" ms (Some N)) f lg)
    as H1.
  pose proof (run_entries tz (CleanScreenshots "match_reports" ms (Some N')) f lg)
    as H2.
  cbn [target run] in H1, H2. rewrite H1, H2. clear H1 H2.
  change (readable (CleanScreenshots "match_reports" ms (Some N')) f)
    with (readable (CleanScreenshots "match_reports" ms (Some N)) f).
  destruct (readable (CleanScreenshots "match_reports" ms (Some N)) f); [|done].
  rewrite !list_elem_of_filter. intros [Hkeep He]. split; [|done].
  apply negb_prop_elim, Is_true_false in Hkeep.
  apply negb_prop_intro, Is_true_false.
  unfold doomed, deleted in *. cbn [eligible deletion_error String.eqb] in *.
  simpl String.eqb in *. cbn iota in *.
  rewrite !or_default_nonzero in * by lia.
  destruct (succeeds rmtree_error Screenshots f (name e));
    [|by rewrite andb_false_r].
  rewrite andb_true_r in *. apply bool_decide_eq_false in Hkeep.
  apply bool_decide_eq_false. intros [Hm Hf]%elem_of_unmatched.
  apply Hkeep, elem_of_unmatched. split; [|done].
  destruct (match_found (report_tokens tz N f) (name e)) eqn:Hm'; [|done].
  apply match_found_tokens in Hm' as (r & Hr & Hc).
  assert (match_found (report_tokens tz N' f) (name e) = true) as Hm''.
  { apply match_found_tokens. exists r. split; [|done].
    by apply (recent_reports_mono N N'); [lia|..]. }
  congruence.
Qed.

Lemma wider_window_keeps_more_witness :
  Demo.folder "run_2024-01-15_10-30-05" 1705314605000000
  ∈ entries Screenshots
      (fs (cleanup_screenshots Demo.utc "match_reports" None (Some 4)
             (World Demo.disk [])).2).
Proof.
  apply (wider_window_keeps_more Demo.utc Demo.disk [] 1 4 None); [lia|lia|].
  vm_compute. left.
Defined.



(** ** Time stamps as folder names *)

Lemma digit_stamp_char c (x : Z) :
  Py.has_char c (Py.digit (x mod 10)) = true -> stamp_char c = true.
Proof.
  pose proof (Z.mod_pos_bound x 10 eq_refl) as Hb.
  unfold Py.digit.
  remember (Z.to_nat (x mod 10)) as n eqn:Hn.
  assert (n < 10)%nat as Hlt by lia. clear Hn Hb.
  do 10 (destruct n as [|n];
         [match goal with
          | |- Py.has_char c (String ?a _) = true -> _ =>
              let a' := eval vm_compute in a in
              change a with a'; unfold Py.has_char;
              destruct (Ascii.eqb_spec a' c) as [<-|];
              [intros _; reflexivity|discriminate]
          end|]).
  lia.
Qed.

Lemma pad2_stamp_char c (n : Z) :
  Py.has_char c (Py.pad2 n) = true -> stamp_char c = true.
Proof.
  unfold Py.pad2. rewrite has_char_app.
  intros [H|H]%orb_prop; by eapply digit_stamp_char.
Qed.

Lemma pad4_stamp_char c (n : Z) :
  Py.has_char c (Py.pad4 n) = true -> stamp_char c = true.
Proof.
  unfold Py.pad4. rewrite has_char_app.
  intros [H|H]%orb_prop; by eapply pad2_stamp_char.
Qed.

Lemma hyphen_stamp_char c :
  Py.has_char c "-" = true -> stamp_char c = true.
Proof.
  unfold Py.has_char. by destruct (Ascii.eqb_spec "-" c) as [<-|].
Qed.

Lemma underscore_stamp_char c :
  Py.has_char c "_" = true -> stamp_char c = true.
Proof.
  unfold Py.has_char. by destruct (Ascii.eqb_spec "_" c) as [<-|].
Qed.

(** The formatted time consists of digits, hyphens and underscores. *)
Lemma strftime_stamp_chars tz (t : Z) c :
  Py.has_char c (Py.strftime_stamp tz t) = true -> stamp_char c = true.
Proof.
  unfold Py.strftime_stamp.
  destruct (Py.civil_from_days _) as [[y m] d].
  rewrite !has_char_app. intros H.
  apply orb_prop in H as [H|H]; [exact (pad4_stamp_char _ _ H)|].
  apply orb_prop in H as [H|H]; [exact (hyphen_stamp_char _ H)|].
  apply orb_prop in H as [H|H]; [exact (pad2_stamp_char _ _ H)|].
  apply orb_prop in H as [H|H]; [exact (hyphen_stamp_char _ H)|].
  apply orb_prop in H as [H|H]; [exact (pad2_stamp_char _ _ H)|].
  apply orb_prop in H as [H|H]; [exact (underscore_stamp_char _ H)|].
  apply orb_prop in H as [H|H]; [exact (pad2_stamp_char _ _ H)|].
  apply orb_prop in H as [H|H]; [exact (hyphen_stamp_char _ H)|].
  apply orb_prop in H as [H|H]; [exact (pad2_stamp_char _ _ H)|].
  apply orb_prop in H as [H|H]; [exact (hyphen_stamp_char _ H)|].
  exact (pad2_stamp_char _ _ H).
Qed.

Lemma contains_has_char (n h : string) c :
  Py.contains n h = true -> Py.has_char c n = true -> Py.has_char c h = true.
Proof.
  intros (a & b & ->)%contains_spec Hc.
  by rewrite !has_char_app, Hc, orb_true_r.
Qed.

Lemma rsplit1_first_head c a (s : string) :
  a <> c -> exists t, Py.rsplit1_first c (String a s) = String a t.
Proof.
  intros Hne. simpl. destruct (Py.has_char c s); [eauto|].
  apply Ascii.eqb_neq in Hne. rewrite Hne. eauto.
Qed.

(** The token of a report that carries the configured prefix starts
    with the second word of the prefix, the letter [r] of [report_]. *)
Lemma prefixed_token_has_letter tz f (r : string) :
  String.prefix REPORTING_SETTINGS.report_prefix r = true ->
  Py.has_char "r" (timestamp_token tz f r) = true.
Proof.
  intros (x & ->)%prefix_spec. unfold timestamp_token.
  unfold REPORTING_SETTINGS.report_prefix.
  assert (Py.split1_second "_" ("playwright_report_" +:+ x)
          = Some ("report_" +:+ x)%string) as ->
    by (rewrite !append_cons, append_nil; reflexivity).
  destruct (rsplit1_first_head "." "r" ("eport_" +:+ x)) as (t & Ht); [done|].
  rewrite append_cons, Ht. reflexivity.
Qed.

(** X9. With the reports named by the configured prefix
    [playwright_report_], the token of a report is the text after the
    first underscore, which begins with [report_]. A screenshot folder
    named by the time stamp alone, as [take_screenshot] names it, can
    then contain no token: the [match_reports] strategy deletes every
    such folder, whatever the time stamps are. *)
Theorem prefixed_reports_match_no_timestamp_folder
    (tz tz' : Z -> Z) (f : filesystem) (lg : list (level * message))
    (rtm ms : option Z) (now : Z) :
  readable (CleanScreenshots "match_reports" ms rtm) f = true ->
  (forall r,
     r ∈ recent_reports (Py.or_default rtm REPORTING_SETTINGS.max_reports_to_keep) f ->
     String.prefix REPORTING_SETTINGS.report_prefix r = true) ->
  succeeds rmtree_error Screenshots f (ScreenshotUtils.timestamp_folder tz' now)
  = true ->
  ScreenshotUtils.timestamp_folder tz' now
  ∉ listing Screenshots
      (fs (cleanup_screenshots tz "match_reports" ms rtm (World f lg)).2).
Proof.
  intros Hread Hpre Hdel.
  destruct (run_as_sweep tz _ f lg Hread) as (line & Hrun).
  simpl in Hrun. rewrite Hrun. simpl. rewrite sweep_listing.
  intros [Hkeep _]%list_elem_of_filter.
  apply negb_prop_elim in Hkeep. apply Hkeep, Is_true_true.
  unfold deleted. rewrite Hdel, andb_true_r. apply bool_decide_eq_true.
  apply elem_of_unmatched. split.
  - destruct (match_found _ _) eqn:Hm; [|done].
    apply match_found_tokens in Hm as (r & Hr & Hc).
    pose proof (contains_has_char _ _ "r" Hc
                  (prefixed_token_has_letter tz f r (Hpre r Hr))) as Hletter.
    by apply strftime_stamp_chars in Hletter.
  - apply list_elem_of_filter.
    unfold succeeds, rmtree_error in Hdel. unfold isdir_of, is_directory.
    destruct (lookup_entry Screenshots _ f) as [e|] eqn:Hl; [|done].
    destruct (find_named_Some _ _ _ Hl) as [He Hn].
    split; [by destruct (ekind e)|].
    apply list_elem_of_fmap. eauto.
Qed.

Lemma prefixed_reports_match_no_timestamp_folder_witness :
  ScreenshotUtils.timestamp_folder Demo.utc 1705314600000000
  ∉ listing Screenshots
      (fs (cleanup_screenshots Demo.utc "match_reports" None None
             (World (FS (Dir [Demo.file
                                "playwright_report_2024-01-15_10-30-00.html" 9])
                        Absent
                        (Dir [Demo.folder "2024-01-15_10-30-00" 8])) [])).2).
Proof.
  apply (prefixed_reports_match_no_timestamp_folder Demo.utc Demo.utc _ []
           None None 1705314600000000).
  - reflexivity.
  - intros r Hr. vm_compute in Hr.
    apply elem_of_cons in Hr as [->|Hr]; [done|by apply elem_of_nil in Hr].
  - reflexivity.
Defined.

(** ** Log files *)

Lemma fnmatch_star_suffix (suf s : string) :
  Py.fnmatch suf suf = true ->
  (fix star (x : string) : bool :=
     if Py.fnmatch suf x then true
     else match x with
          | EmptyString => false
          | String _ x' => star x'
          end) (s +:+ suf)%string = true.
Proof.
  intros Hsuf. induction s as [|a s IH].
  - rewrite append_nil. destruct suf; by rewrite Hsuf.
  - rewrite append_cons. by destruct (Py.fnmatch suf (String a (s +:+ suf))).
Qed.

(** X10. Every log file that the logger creates is one that
    [cleanup_logs] chooses among: its name, [test_execution_] followed
    by the start time and [.log], matches the pattern
    [test_execution_*.log] whatever the time and the time zone. *)
Theorem logger_files_match_cleanup_pattern (tz : Z -> Z) (now : Z) :
  glob_match "test_execution_*.log" (Logger.log_file_name tz now) = true.
Proof.
  unfold Logger.log_file_name, glob_match.
  generalize (Py.strftime_stamp tz now). intros stamp.
  rewrite !append_cons, append_nil. simpl.
  by apply (fnmatch_star_suffix ".log").
Qed.

(* ================================================================== *)
(** * Every operation in closed form *)
(* ================================================================== *)

Lemma sweep_log_prefix err r ps f (lg lg0 : list (level * message)) :
  sweep err r ps (World f (lg ++ lg0))
  = World (fs (sweep err r ps (World f lg0)))
          (lg ++ log (sweep err r ps (World f lg0))).
Proof.
  revert f lg0. induction ps as [|p ps IH]; intros f lg0; [done|].
  simpl. unfold attempt. simpl.
  destruct (err (lookup_entry r p f)); rewrite <-app_assoc; apply IH.
Qed.

(** An operation either raises [failure] after its first line, or is
    the deletion loop over its eligible entries. *)
Lemma run_closed_form tz op f lg :
  run tz op (World f lg)
  = if readable op f
    then (inr tt, sweep (deletion_error op) (target op) (eligible tz op f)
                    (World f (lg ++ [first_line op f])))
    else (inl (failure op f), World f (lg ++ [first_line op f])).
Proof.
  unfold first_line.
  destruct op as [k|k|s ms rtm]; simpl.
  - rewrite cleanup_reports_unfold, retain_matching_cases.
    destruct (root_exists Reports f) eqn:Hex; [done|].
    rewrite matching_absent, candidates_nil; [done|].
    unfold root_exists in Hex. unfold entries. by destruct (node_of Reports f).
  - rewrite cleanup_logs_unfold, retain_matching_cases.
    destruct (root_exists Logs f) eqn:Hex; [done|].
    rewrite matching_absent, candidates_nil; [done|].
    unfold root_exists in Hex. unfold entries. by destruct (node_of Logs f).
  - rewrite cleanup_screenshots_run. unfold root_exists. simpl.
    destruct (screenshots_node f) as [| |es] eqn:Hn.
    + assert (entries Screenshots f = []) as He
        by (unfold entries; simpl; by rewrite Hn).
      unfold unmatched. rewrite (folders_absent _ _ He), candidates_nil.
      by destruct (String.eqb s "match_reports"),
                  (String.eqb s "last_execution").
    + destruct (String.eqb s "match_reports") eqn:Hs; simpl.
      * rewrite match_reports_run, Hn.
        by destruct (forallb (stat_ok Reports f) (matching Reports "*.html" f)).
      * destruct (String.eqb s "last_execution"); simpl; [|done].
        by rewrite last_execution_run, Hn.
    + destruct (String.eqb s "match_reports") eqn:Hs; simpl.
      * rewrite match_reports_run, Hn.
        by destruct (forallb (stat_ok Reports f) (matching Reports "*.html" f)).
      * destruct (String.eqb s "last_execution"); simpl; [|done].
        by rewrite last_execution_run, Hn.
Qed.

(** What is already in the log plays no part in a run. *)
Lemma run_log_prefix tz op f lg :
  run tz op (World f lg)
  = ((run tz op (World f [])).1,
     World (fs (run tz op (World f [])).2)
           (lg ++ log (run tz op (World f [])).2)).
Proof.
  rewrite !run_closed_form. destruct (readable op f); simpl; [|done].
  by rewrite sweep_log_prefix.
Qed.

(** ** Roots that an operation does not read *)

Lemma set_node_comm r r' n n' f :
  r <> r' -> set_node r n (set_node r' n' f) = set_node r' n' (set_node r n f).
Proof. by destruct r, r'. Qed.

Lemma entries_set_node_ne r r' n f :
  r <> r' -> entries r (set_node r' n f) = entries r f.
Proof. intros. unfold entries. by rewrite node_of_set_node_ne. Qed.

Lemma sweep_set_node err r r' n ps f lg :
  r <> r' ->
  sweep err r ps (World (set_node r' n f) lg)
  = World (set_node r' n (fs (sweep err r ps (World f lg))))
          (log (sweep err r ps (World f lg))).
Proof.
  intros Hne. revert f lg. induction ps as [|p ps IH]; intros f lg; [done|].
  simpl. unfold attempt. simpl. unfold lookup_entry.
  rewrite entries_set_node_ne by done.
  destruct (err (List.find (named p) (entries r f))); [apply IH|].
  unfold unlink. rewrite entries_set_node_ne, set_node_comm by done. apply IH.
Qed.

Lemma unread_root_ignored tz op r n f :
  reads op r = false ->
  readable op (set_node r n f) = readable op f
  /\ eligible tz op (set_node r n f) = eligible tz op f
  /\ first_line op (set_node r n f) = first_line op f
  /\ failure op (set_node r n f) = failure op f.
Proof.
  destruct op as [k|k|s ms rtm], r; try done; simpl.
  all: intros Hs; try rewrite Hs; done.
Qed.

Lemma reads_target op : reads op (target op) = true.
Proof. by destruct op. Qed.

(** Changing a root that an operation does not read changes neither
    its outcome nor its log, and the change is still there afterwards. *)
Lemma run_set_node tz op r n f lg :
  reads op r = false ->
  run tz op (World (set_node r n f) lg)
  = ((run tz op (World f lg)).1,
     World (set_node r n (fs (run tz op (World f lg)).2))
           (log (run tz op (World f lg)).2)).
Proof.
  intros Hr. rewrite !run_closed_form.
  destruct (unread_root_ignored tz op r n f Hr) as (-> & -> & -> & ->).
  destruct (readable op f); simpl; [|done].
  rewrite sweep_set_node; [done|].
  intros <-. by rewrite reads_target in Hr.
Qed.

Lemma run_other_roots tz op f lg r :
  r <> target op -> node_of r (fs (run tz op (World f lg)).2) = node_of r f.
Proof.
  intros Hr. rewrite run_closed_form.
  destruct (readable op f); simpl; [|done]. by apply sweep_other_roots.
Qed.

(** A run as a change of the node of its target root. *)
Lemma run_fs_frame tz op f lg :
  fs (run tz op (World f lg)).2
  = set_node (target op)
      (node_of (target op) (fs (run tz op (World f lg)).2)) f.
Proof.
  pose proof (fun r => run_other_roots tz op f lg r) as Hframe.
  destruct (fs (run tz op (World f lg)).2) as [a b c] eqn:Hf.
  destruct f as [a0 b0 c0].
  pose proof (Hframe Reports) as HR. pose proof (Hframe Logs) as HL.
  pose proof (Hframe Screenshots) as HS. clear Hframe.
  destruct op; simpl in *.
  - by rewrite HL, HS.
  - by rewrite HR, HS.
  - by rewrite HR, HL.
Qed.

Lemma run_result tz op f lg :
  (run tz op (World f lg)).1
  = if readable op f then inr tt else inl (failure op f).
Proof. rewrite run_closed_form. by destruct (readable op f). Qed.

Lemma run_fs_log tz op f lg :
  fs (run tz op (World f lg)).2 = fs (run tz op (World f [])).2.
Proof. by rewrite run_log_prefix. Qed.

Lemma run_unreadable_fs tz op f lg :
  readable op f = false -> fs (run tz op (World f lg)).2 = f.
Proof. intros H. by rewrite run_closed_form, H. Qed.


(* ================================================================== *)
(** * Independent operations *)
(* ================================================================== *)

Lemma run_after_unread tz op1 op2 f lg :
  reads op2 (target op1) = false ->
  (run tz op2 (run tz op1 (World f lg)).2).1 = (run tz op2 (World f [])).1
  /\ fs (run tz op2 (run tz op1 (World f lg)).2).2
     = set_node (target op1)
         (node_of (target op1) (fs (run tz op1 (World f [])).2))
         (fs (run tz op2 (World f [])).2).
Proof.
  intros Hr.
  destruct (run tz op1 (World f lg)).2 as [f1 lg1] eqn:E1.
  assert (f1 = fs (run tz op1 (World f [])).2) as Hf1.
  { rewrite <-(run_fs_log tz op1 f lg), E1. done. }
  rewrite (run_fs_frame tz op1 f []) in Hf1. rewrite Hf1.
  rewrite run_set_node by done. simpl.
  by rewrite run_result, (run_result tz op2 f []), (run_fs_log tz op2 f lg1).
Qed.

Lemma reads_distinct op1 op2 :
  reads op2 (target op1) = false -> target op2 <> target op1.
Proof. intros Hr Heq. by rewrite <-Heq, reads_target in Hr. Qed.

Lemma run_commute tz op1 op2 f lg :
  reads op1 (target op2) = false ->
  reads op2 (target op1) = false ->
  fs (run tz op2 (run tz op1 (World f lg)).2).2
  = fs (run tz op1 (run tz op2 (World f lg)).2).2.
Proof.
  intros H12 H21.
  destruct (run_after_unread tz op1 op2 f lg H21) as [_ ->].
  destruct (run_after_unread tz op2 op1 f lg H12) as [_ ->].
  rewrite (run_fs_frame tz op1 f []) at 2.
  rewrite (run_fs_frame tz op2 f []) at 1.
  apply set_node_comm. apply not_eq_sym. by apply reads_distinct.
Qed.

(** X11. Operations on different directories can be run in either
    order: [cleanup_logs] commutes with [cleanup_reports] and with
    [cleanup_screenshots], and [cleanup_reports] commutes with
    [cleanup_screenshots] under any strategy other than [match_reports],
    whatever the counts and whatever fails; the file system at the end is
    the same. *)
Theorem independent_operations_commute
    (tz : Z -> Z) (f : filesystem) (lg : list (level * message))
    (k k' : option Z) (strategy : string) (ms rtm : option Z) :
  fs (cleanup_logs k' (cleanup_reports k (World f lg)).2).2
  = fs (cleanup_reports k (cleanup_logs k' (World f lg)).2).2
  /\ fs (cleanup_screenshots tz strategy ms rtm
           (cleanup_logs k' (World f lg)).2).2
     = fs (cleanup_logs k'
             (cleanup_screenshots tz strategy ms rtm (World f lg)).2).2
  /\ (strategy <> "match_reports"%string ->
      fs (cleanup_screenshots tz strategy ms rtm
            (cleanup_reports k (World f lg)).2).2
      = fs (cleanup_reports k
              (cleanup_screenshots tz strategy ms rtm (World f lg)).2).2).
Proof.
  split; [|split].
  - exact (run_commute tz (CleanReports k) (CleanLogs k') f lg
             eq_refl eq_refl).
  - exact (run_commute tz (CleanLogs k') (CleanScreenshots strategy ms rtm)
             f lg eq_refl eq_refl).
  - intros Hs%String.eqb_neq.
    exact (run_commute tz (CleanReports k) (CleanScreenshots strategy ms rtm)
             f lg eq_refl Hs).
Qed.

Lemma independent_operations_commute_witness :
  fs (cleanup_screenshots Demo.utc "last_execution" (Some 1) None
        (cleanup_reports (Some 2) (World Demo.disk [])).2).2
  = fs (cleanup_reports (Some 2)
          (cleanup_screenshots Demo.utc "last_execution" (Some 1) None
             (World Demo.disk [])).2).2.
Proof.
  destruct (independent_operations_commute Demo.utc Demo.disk []
              (Some 2) (Some 2) "last_execution" (Some 1) None)
    as (_ & _ & Hc).
  apply Hc. discriminate.
Defined.

(* ================================================================== *)
(** * The script [cleanup.py] *)
(* ================================================================== *)

Lemma call_run tz op f l :
  Script.call (run tz op) (Script.Session f l)
  = ((run tz op (World f [])).1,
     Script.Session (fs (run tz op (World f [])).2)
       (l ++ (from_utils <$> log (run tz op (World f [])).2))).
Proof. unfold Script.call. simpl. by destruct (run tz op (World f [])). Qed.

(** [main] as its three runs, each on the file system the one before
    left. *)
Lemma main_with_steps tz args f l :
  let w1 := (run tz (reports_step args) (World f [])).2 in
  let w2 := (run tz (logs_step args) (World (fs w1) [])).2 in
  let w3 := (run tz (screenshots_step args) (World (fs w2) [])).2 in
  let l1 := (l ++ [(INFO, Script.StartingCleanupProcess)])
            ++ (from_utils <$> log w1) in
  let l2 := l1 ++ (from_utils <$> log w2) in
  let l3 := l2 ++ (from_utils <$> log w3) in
  Script.main_with tz args (Script.Session f l)
  = if negb (readable (reports_step args) f) then
      (inl (failure (reports_step args) f), Script.Session (fs w1) l1)
    else if negb (readable (logs_step args) (fs w1)) then
      (inl (failure (logs_step args) (fs w1)), Script.Session (fs w2) l2)
    else if negb (readable (screenshots_step args) (fs w2)) then
      (inl (failure (screenshots_step args) (fs w2)), Script.Session (fs w3) l3)
    else
      (inr tt, Script.Session (fs w3)
                 (l3 ++ [(INFO, Script.CleanupProcessCompleted)])).
Proof.
  intros w1 w2 w3 l1 l2 l3. unfold Script.main_with, Script.script_info.
  change (cleanup_reports (Some (Script.reports args)))
    with (run tz (reports_step args)).
  change (cleanup_logs (Some (Script.reports args)))
    with (run tz (logs_step args)).
  change (cleanup_screenshots tz (Script.screenshots args)
            (Some (Script.max_screenshots args))
            (Some (Script.reports_to_match args)))
    with (run tz (screenshots_step args)).
  cbn [Script.sfs Script.slog]. rewrite call_run, run_result. fold w1 l1.
  destruct (readable (reports_step args) f); cbn [negb]; [|done].
  rewrite call_run, run_result. fold w2 l2.
  destruct (readable (logs_step args) (fs w1)); cbn [negb]; [|done].
  rewrite call_run, run_result. fold w3 l3.
  by destruct (readable (screenshots_step args) (fs w2)).
Qed.

(** Sweeping a root keeps what could be [stat]ed there. *)
Lemma sweep_stat_ok err r pat ps f lg :
  forallb (stat_ok r f) (matching r pat f) = true ->
  forallb (stat_ok r (fs (sweep err r ps (World f lg))))
    (matching r pat (fs (sweep err r ps (World f lg)))) = true.
Proof.
  intros Hok. apply forallb_forall. intros p Hp%list_elem_of_In.
  rewrite sweep_matching in Hp. apply list_elem_of_filter in Hp as [Hdel Hp].
  unfold stat_ok. rewrite sweep_lookup
    by by apply negb_prop_elim, Is_true_false in Hdel.
  rewrite forallb_forall in Hok. by apply Hok, list_elem_of_In.
Qed.

Lemma readable_after_reports tz k op f lg :
  readable (CleanReports k) f = true ->
  readable op (fs (run tz (CleanReports k) (World f lg)).2) = readable op f.
Proof.
  intros Hread.
  assert (forall r, r <> Reports ->
            node_of r (fs (run tz (CleanReports k) (World f lg)).2)
            = node_of r f) as Hframe
    by (intros r Hr; by apply run_other_roots).
  assert (forallb (stat_ok Reports (fs (run tz (CleanReports k) (World f lg)).2))
            (matching Reports "*.html"
               (fs (run tz (CleanReports k) (World f lg)).2)) = true) as Hok.
  { rewrite run_closed_form, Hread. simpl. by apply sweep_stat_ok. }
  unfold readable in Hread.
  destruct op as [k'|k'|s ms rtm]; unfold readable.
  - by rewrite Hok, Hread.
  - pose proof (Hframe Logs) as HL.
    unfold matching, listing, stat_ok, lookup_entry, entries.
    by rewrite HL.
  - pose proof (Hframe Screenshots) as HS. cbn [node_of] in HS.
    rewrite HS by done. by rewrite Hok, Hread.
Qed.

Lemma readable_steps tz args f :
  readable (reports_step args) f = true ->
  let f1 := fs (run tz (reports_step args) (World f [])).2 in
  let f2 := fs (run tz (logs_step args) (World f1 [])).2 in
  readable (logs_step args) f1 = readable (logs_step args) f
  /\ readable (screenshots_step args) f2 = readable (screenshots_step args) f.
Proof.
  intros Hread f1 f2. split.
  - by apply readable_after_reports.
  - unfold f2. rewrite (run_fs_frame tz (logs_step args) f1 []).
    destruct (unread_root_ignored tz (screenshots_step args)
                (target (logs_step args))
                (node_of (target (logs_step args))
                   (fs (run tz (logs_step args) (World f1 [])).2)) f1 eq_refl)
      as (-> & _).
    by apply readable_after_reports.
Qed.



Lemma run_on_fs tz op w :
  fs (run tz op (World (fs w) [])).2 = fs (run tz op w).2.
Proof. destruct w as [f lg]. symmetry. apply run_fs_log. Qed.

(** The screenshots root after [main]. *)
Lemma main_screenshots_node tz args f l :
  screenshots_node
    (Script.sfs (Script.main_with tz args (Script.Session f l)).2)
  = if readable (reports_step args) f && readable (logs_step args) f
    then screenshots_node
           (fs (run tz (screenshots_step args)
                  (World (fs (run tz (reports_step args) (World f [])).2)
                     [])).2)
    else screenshots_node f.
Proof.
  rewrite main_with_steps.
  set (F1 := fs (run tz (reports_step args) (World f [])).2).
  set (F2 := fs (run tz (logs_step args) (World F1 [])).2).
  assert (screenshots_node F1 = screenshots_node f) as H1
    by (exact (run_other_roots tz (reports_step args) f [] Screenshots
                 ltac:(discriminate))).
  assert (screenshots_node F2 = screenshots_node F1) as H2
    by (exact (run_other_roots tz (logs_step args) F1 [] Screenshots
                 ltac:(discriminate))).
  destruct (readable (reports_step args) f) eqn:HR; cbn [negb andb snd Script.sfs];
    [|done].
  destruct (readable_steps tz args f HR) as [HL HS]. fold F1 in HL. rewrite HL.
  destruct (readable (logs_step args) f) eqn:HL'; cbn [negb andb snd Script.sfs];
    [|by rewrite H2].
  assert (screenshots_node
            (fs (run tz (screenshots_step args) (World F2 [])).2)
          = screenshots_node
              (fs (run tz (screenshots_step args) (World F1 [])).2)) as H3.
  { unfold F2 at 1. rewrite (run_fs_frame tz (logs_step args) F1 []).
    by rewrite run_set_node. }
  by destruct (negb (readable (screenshots_step args) F2));
    cbn [snd Script.sfs].
Qed.

(** X13. [main] acts on each directory as the operation for it does
    alone: the reports are left as [cleanup_reports] leaves them, the
    logs as [cleanup_logs] with the reports count leaves them, and the
    screenshots as [cleanup_screenshots] leaves them when it runs on what
    [cleanup_reports] left. A directory whose turn comes after an
    exception is untouched. *)
Theorem main_cleans_each_directory
    (tz : Z -> Z) (args : Script.Namespace) (f : filesystem)
    (l : list (level * Script.script_message)) :
  let after := Script.sfs (Script.main_with tz args (Script.Session f l)).2 in
  let f1 := fs (cleanup_reports (Some (Script.reports args)) (World f [])).2 in
  reports_node after = reports_node f1
  /\ logs_node after
     = (if readable (reports_step args) f
        then logs_node
               (fs (cleanup_logs (Some (Script.reports args)) (World f [])).2)
        else logs_node f)
  /\ screenshots_node after
     = (if readable (reports_step args) f && readable (logs_step args) f
        then screenshots_node
               (fs (cleanup_screenshots tz (Script.screenshots args)
                      (Some (Script.max_screenshots args))
                      (Some (Script.reports_to_match args)) (World f1 [])).2)
        else screenshots_node f).
Proof.
  intros after f1. split; [|split]; [| |apply main_screenshots_node].
  - unfold after. rewrite main_with_steps.
    set (F1 := fs (run tz (reports_step args) (World f [])).2).
    set (F2 := fs (run tz (logs_step args) (World F1 [])).2).
    set (F3 := fs (run tz (screenshots_step args) (World F2 [])).2).
    assert (reports_node F2 = reports_node F1) as H2
      by (exact (run_other_roots tz (logs_step args) F1 [] Reports
                   ltac:(discriminate))).
    assert (reports_node F3 = reports_node F2) as H3
      by (exact (run_other_roots tz (screenshots_step args) F2 [] Reports
                   ltac:(discriminate))).
    destruct (negb (readable (reports_step args) f)); [done|].
    destruct (negb (readable (logs_step args) F1)); [done|].
    destruct (negb (readable (screenshots_step args) F2));
      cbn [snd Script.sfs]; by rewrite H3, H2.
  - unfold after. rewrite main_with_steps.
    set (F1 := fs (run tz (reports_step args) (World f [])).2).
    set (F2 := fs (run tz (logs_step args) (World F1 [])).2).
    set (F3 := fs (run tz (screenshots_step args) (World F2 [])).2).
    assert (logs_node F1 = logs_node f) as H1
      by (exact (run_other_roots tz (reports_step args) f [] Logs
                   ltac:(discriminate))).
    assert (logs_node F3 = logs_node F2) as H3
      by (exact (run_other_roots tz (screenshots_step args) F2 [] Logs
                   ltac:(discriminate))).
    assert (logs_node F2
            = logs_node (fs (run tz (logs_step args) (World f [])).2)) as H2.
    { unfold F2, F1. rewrite (run_fs_frame tz (reports_step args) f []).
      by rewrite run_set_node. }
    destruct (readable (reports_step args) f) eqn:HR;
      cbn [negb snd Script.sfs]; [|done].
    destruct (negb (readable (logs_step args) F1)); cbn [snd Script.sfs];
      [done|].
    destruct (negb (readable (screenshots_step args) F2));
      cbn [snd Script.sfs]; by rewrite H3.
Qed.

Lemma main_cleans_each_directory_witness :
  logs_node
    (Script.sfs
       (Script.main_with Demo.utc
          {| Script.reports := 2; Script.screenshots := "match_reports";
             Script.max_screenshots := 5; Script.reports_to_match := 5 |}
          (Script.Session Demo.disk [])).2)
  = logs_node (fs (cleanup_logs (Some 2) (World Demo.disk [])).2).
Proof.
  destruct (main_cleans_each_directory Demo.utc
              {| Script.reports := 2; Script.screenshots := "match_reports";
                 Script.max_screenshots := 5; Script.reports_to_match := 5 |}
              Demo.disk []) as (_ & Hlogs & _).
  exact Hlogs.
Defined.

(** ** The window of [match_reports] inside [main] *)

Lemma sweep_fs_log err r ps f lg lg' :
  fs (sweep err r ps (World f lg)) = fs (sweep err r ps (World f lg')).
Proof.
  rewrite <-(app_nil_r lg), <-(app_nil_r lg'). by rewrite !sweep_log_prefix.
Qed.

Lemma folders_node r f f' :
  node_of r f' = node_of r f -> folders r f' = folders r f.
Proof.
  intros H. unfold folders, isdir_of, lookup_entry, listing, entries.
  by rewrite H.
Qed.

(** After a report cleanup with a positive count [k] in which no
    deletion fails, the reports of a window [n] are those of the window
    [min k n] before it, with the same tokens. *)
Lemma tokens_after_report_cleanup tz (k n : Z) f lg :
  0 < k -> 0 < n ->
  NoDup (listing Reports f) ->
  readable (CleanReports (Some k)) f = true ->
  (forall p, p ∈ eligible tz (CleanReports (Some k)) f ->
     succeeds remove_error Reports f p = true) ->
  report_tokens tz n (fs (run tz (CleanReports (Some k)) (World f lg)).2)
  = report_tokens tz (Z.min k n) f.
Proof.
  intros Hk Hn Hnd Hread Hdel.
  rewrite run_closed_form, Hread. cbn [snd target deletion_error].
  set (ps := matching Reports "*.html" f).
  set (E := eligible tz (CleanReports (Some k)) f) in *.
  set (f1 := fs (sweep remove_error Reports E
                   (World f (lg ++ [first_line (CleanReports (Some k)) f])))).
  assert (E = drop (Z.to_nat k) (newest_first (mtime_of Reports f) ps)) as HE.
  { unfold E. cbn [eligible]. rewrite or_default_nonzero by lia.
    by rewrite candidates_nonneg by lia. }
  assert (matching Reports "*.html" f1 = filter (fun p => p ∉ E) ps) as Hm.
  { unfold f1. rewrite sweep_matching. by apply deleted_candidates. }
  assert (forall p, p ∈ filter (fun p => p ∉ E) ps ->
            lookup_entry Reports p f1 = lookup_entry Reports p f) as Hsame.
  { intros p [HpE _]%list_elem_of_filter. unfold f1. apply sweep_lookup.
    unfold deleted. by rewrite bool_decide_eq_false_2. }
  destruct (retained_spec (mtime_of Reports f) (Z.to_nat k) ps
              (NoDup_matching _ _ _ Hnd)) as (Hsorted & _ & Hin & _).
  simpl in Hsorted, Hin. fold ps in HE. rewrite <-HE in Hsorted, Hin.
  unfold report_tokens. rewrite !recent_reports_nonneg by lia. rewrite Hm.
  rewrite (newest_first_ext (mtime_of Reports f1) (mtime_of Reports f))
    by (intros p Hp; unfold mtime_of, attr_of; by rewrite Hsame).
  rewrite Hsorted, take_take. fold ps.
  replace (Z.to_nat n `min` Z.to_nat k)%nat with (Z.to_nat (Z.min k n)) by lia.
  apply list_fmap_ext. intros i r Hr.
  assert (r ∈ filter (fun p => p ∉ E) ps) as Hr'.
  { apply Hin. apply list_elem_of_lookup_2 in Hr.
    apply elem_of_take in Hr as (j & Hj & Hlt).
    apply elem_of_take. exists j. split; [done|lia]. }
  unfold timestamp_token, mtime_of, attr_of. by rewrite (Hsame r Hr').
Qed.

(** X14. In [main] the [match_reports] strategy looks at the reports
    that [cleanup_reports] has just left: with [--reports k] and
    [--reports-to-match n], both positive, and no failing report
    deletion, the screenshots end as a run of [cleanup_screenshots] with
    the window [min k n] on the initial file system leaves them. A window
    wider than the reports count has no effect. *)
Theorem main_window_is_the_smaller_count
    (tz : Z -> Z) (args : Script.Namespace) (f : filesystem)
    (l : list (level * Script.script_message)) :
  Script.screenshots args = "match_reports"%string ->
  0 < Script.reports args ->
  0 < Script.reports_to_match args ->
  NoDup (listing Reports f) ->
  readable (reports_step args) f = true ->
  readable (logs_step args) f = true ->
  (forall p, p ∈ eligible tz (reports_step args) f ->
     succeeds remove_error Reports f p = true) ->
  screenshots_node
    (Script.sfs (Script.main_with tz args (Script.Session f l)).2)
  = screenshots_node
      (fs (cleanup_screenshots tz "match_reports"
             (Some (Script.max_screenshots args))
             (Some (Z.min (Script.reports args) (Script.reports_to_match args)))
             (World f [])).2).
Proof.
  intros Hs Hk Hn Hnd HR HL Hdel.
  rewrite main_screenshots_node, HR, HL. cbn [andb].
  set (S := screenshots_step args).
  set (S' := CleanScreenshots "match_reports"
               (Some (Script.max_screenshots args))
               (Some (Z.min (Script.reports args)
                        (Script.reports_to_match args)))).
  change (cleanup_screenshots tz "match_reports" _ _) with (run tz S').
  set (F1 := fs (run tz (reports_step args) (World f [])).2).
  assert (readable S F1 = readable S f) as HS1
    by exact (readable_after_reports tz _ S f [] HR).
  assert (screenshots_node F1 = screenshots_node f) as Hnode
    by (exact (run_other_roots tz (reports_step args) f [] Screenshots
                 ltac:(discriminate))).
  assert (readable S' f = readable S f) as HS'
    by (unfold S, S', screenshots_step, readable; by rewrite Hs).
  assert (eligible tz S F1 = eligible tz S' f) as Hel.
  { unfold S, S', screenshots_step. cbn [eligible]. rewrite Hs.
    cbn [String.eqb Ascii.eqb Bool.eqb]. cbn iota.
    rewrite !or_default_nonzero by lia.
    unfold unmatched.
    rewrite (folders_node Screenshots f F1) by exact Hnode.
    unfold F1, reports_step.
    by rewrite tokens_after_report_cleanup. }
  rewrite !run_closed_form, HS1, HS', Hel.
  destruct (readable S f); cbn [snd fs]; [|exact Hnode].
  unfold F1 at 1. rewrite (run_fs_frame tz (reports_step args) f []).
  rewrite sweep_set_node by discriminate. cbn [fs].
  change (screenshots_node (set_node (target (reports_step args)) ?n ?x))
    with (screenshots_node x).
  f_equal. apply sweep_fs_log.
Qed.

Lemma main_window_is_the_smaller_count_witness :
  screenshots_node
    (Script.sfs
       (Script.main_with Demo.utc
          {| Script.reports := 1; Script.screenshots := "match_reports";
             Script.max_screenshots := 5; Script.reports_to_match := 4 |}
          (Script.Session Demo.disk [])).2)
  = screenshots_node
      (fs (cleanup_screenshots Demo.utc "match_reports" (Some 5)
             (Some (Z.min 1 4)) (World Demo.disk [])).2).
Proof.
  apply (main_window_is_the_smaller_count Demo.utc
           {| Script.reports := 1; Script.screenshots := "match_reports";
              Script.max_screenshots := 5; Script.reports_to_match := 4 |}
           Demo.disk []).
  - reflexivity.
  - simpl. lia.
  - simpl. lia.
  - apply (bool_decide_unpack _). by vm_compute.
  - reflexivity.
  - reflexivity.
  - intros p Hp. vm_compute in Hp.
    repeat (apply elem_of_cons in Hp as [->|Hp]; [done|]).
    by apply elem_of_nil in Hp.
Defined.

(** ** The strategies the command line lets through *)





(* ================================================================== *)
(** * The log and the deletions *)
(* ================================================================== *)

Lemma NoDup_candidates key keep (ps : list string) :
  NoDup ps -> NoDup (candidates key keep ps).
Proof.
  intros Hnd. unfold candidates, Py.slice_from. simpl.
  pose proof (NoDup_newest_first key ps Hnd) as Hs.
  destruct (Py.len (newest_first key ps) >? keep); [|constructor].
  destruct (0 <=? keep); eapply sublist_NoDup; try exact Hs; apply sublist_drop.
Qed.

Lemma NoDup_eligible tz op f :
  NoDup (listing (target op) f) -> NoDup (eligible tz op f).
Proof.
  intros Hnd. destruct op as [k|k|s ms rtm]; cbn [eligible target] in *.
  - by apply NoDup_candidates, NoDup_matching.
  - by apply NoDup_candidates, NoDup_matching.
  - destruct (String.eqb s "match_reports").
    { unfold unmatched. by apply NoDup_filter, NoDup_folders. }
    destruct (String.eqb s "last_execution"); [|constructor].
    by apply NoDup_candidates, NoDup_folders.
Qed.

Lemma first_line_not_deletion op f r p :
  first_line op f <> (INFO, DeletedOld r p).
Proof.
  unfold first_line. destruct (root_exists (target op) f); [|done].
  destruct op as [k|k|s ms rtm]; [done|done|].
  destruct (String.eqb s "match_reports"); [done|].
  by destruct (String.eqb s "last_execution").
Qed.

Lemma outcome_deleted err r f (ps : list string) p :
  (INFO, DeletedOld r p) ∈ (outcome err r f <$> ps)
  <-> deleted err r f ps p = true.
Proof.
  unfold deleted. rewrite list_elem_of_fmap. split.
  - intros (q & Hq & Hin). unfold outcome in Hq. unfold succeeds.
    destruct (err (lookup_entry r q f)) eqn:Herr; [done|].
    injection Hq as <-. by rewrite bool_decide_eq_true_2, Herr.
  - intros [Hin Hs]%andb_true_iff. apply bool_decide_eq_true in Hin.
    exists p. split; [|done]. unfold outcome. unfold succeeds in Hs.
    by destruct (err (lookup_entry r p f)).
Qed.

(** X16. The log tells which entries went: after a run of any of the
    operations, an entry of the directory it cleans is gone exactly when
    the run logged [Deleted old ...] for its name. Nothing is removed
    silently, and no deletion is reported that did not happen. *)
Theorem entry_gone_iff_deletion_logged
    (tz : Z -> Z) (op : operation) (f : filesystem)
    (lg : list (level * message)) (e : entry) :
  NoDup (listing (target op) f) ->
  e ∈ entries (target op) f ->
  let after := (run tz op (World f lg)).2 in
  e ∉ entries (target op) (fs after)
  <-> (INFO, DeletedOld (target op) (name e)) ∈ drop (length lg) (log after).
Proof.
  intros Hnd He after. unfold after. rewrite run_closed_form.
  destruct (readable op f); cbn [snd fs log].
  - rewrite sweep_entries, sweep_log_exact by by apply NoDup_eligible.
    rewrite <-app_assoc, drop_app_length. cbn [app].
    rewrite elem_of_cons, outcome_deleted, list_elem_of_filter.
    unfold doomed.
    destruct (deleted (deletion_error op) (target op) f (eligible tz op f)
                (name e)); simpl; split.
    + by right.
    + by intros _ [[] _].
    + intros []. by split.
    + intros [Hfl|]; [|done]. symmetry in Hfl.
      by apply first_line_not_deletion in Hfl.
  - rewrite drop_app_length. split; [done|].
    intros [Hfl|[]%elem_of_nil]%elem_of_cons. symmetry in Hfl.
    by apply first_line_not_deletion in Hfl.
Qed.

Lemma entry_gone_iff_deletion_logged_witness :
  (Demo.folder "run_free" 6
   ∉ entries Screenshots
       (fs (run Demo.utc (CleanScreenshots "match_reports" None None)
              (World Demo.locked_folder [])).2)
   <-> (INFO, DeletedOld Screenshots "run_free")
       ∈ drop 0
           (log (run Demo.utc (CleanScreenshots "match_reports" None None)
                   (World Demo.locked_folder [])).2)).
Proof.
  apply (entry_gone_iff_deletion_logged Demo.utc
           (CleanScreenshots "match_reports" None None)
           Demo.locked_folder [] (Demo.folder "run_free" 6)).
  - apply (bool_decide_unpack _). by vm_compute.
  - vm_compute. right. left.
Defined.

(* ================================================================== *)
(** * Cleaning the screenshots twice *)
(* ================================================================== *)







(* ================================================================== *)
(** * Exceptions come before any deletion *)
(* ================================================================== *)


